(** * Name-tag builder: a shallow embedding of [main.py]

    The script reads names and optional geometry parameters from a CSV file,
    renders one OpenSCAD script per name and drives the external [openscad]
    executable on it.  Python text is modelled as a list of Unicode code
    points, dictionaries as finite maps, and the operating system (files,
    console, child processes) as an explicit world threaded through a small
    state-and-exception monad.  The script is the only actor besides the
    processes it starts, and writing to the console never fails. *)

From Stdlib Require Import PrimFloat.
From stdpp Require Import gmap list strings pretty.

Local Open Scope N_scope.

(** ** Text *)

(** A Python [str] is a sequence of code points. *)
Abbreviation str := (list N).

(** A source literal, character by character (the literals of [main.py] that
    are written this way are ASCII). *)
Definition lit (s : string) : str :=
  Ascii.N_of_ascii <$> String.list_ascii_of_string s.

Definition chr_space : N := 32.
Definition chr_hyphen : N := 45.
Definition chr_underscore : N := 95.
Definition chr_quote : N := 34.
Definition chr_newline : N := 10.

(** What the interpreter supplies and the repository does not: the Unicode
    character tables beyond ASCII, the parser behind [float(s)] and the
    formatting of a float inside an f-string. *)
Class Runtime := {
  unicode_isalnum : N → bool;
  unicode_isspace : N → bool;
  float_of_str : str → option float;
  float_repr : float → str;
}.

Section Text.
Context {rt : Runtime}.

(** [c.isalnum()] for a one-character string. *)
Definition isalnum (c : N) : bool :=
  if c <? 128
  then ((48 <=? c) && (c <=? 57)) || ((65 <=? c) && (c <=? 90))
       || ((97 <=? c) && (c <=? 122))
  else unicode_isalnum c.

(** [c.isspace()]: what [str.strip()] removes. *)
Definition isspace (c : N) : bool :=
  if c <? 128
  then ((9 <=? c) && (c <=? 13)) || ((28 <=? c) && (c <=? 32))
  else unicode_isspace c.

Fixpoint lstrip (s : str) : str :=
  match s with
  | [] => []
  | c :: s' => if isspace c then lstrip s' else s
  end.

Definition rstrip (s : str) : str := reverse (lstrip (reverse s)).

(** [s.strip()] *)
Definition strip (s : str) : str := rstrip (lstrip s).

(** [s.replace(old, new)] for a one-character [old]. *)
Definition replace (old : N) (new : str) (s : str) : str :=
  c ← s; if decide (c = old) then new else [c].

(** [sep.join(parts)] *)
Fixpoint join (sep : str) (parts : list str) : str :=
  match parts with
  | [] => []
  | [p] => p
  | p :: ps => p ++ sep ++ join sep ps
  end.

(** [sanitize_filename] (lines 149-154). *)
Definition sanitize_filename (name : str) : str :=
  let safe_name :=
    join [] ((λ c, if isalnum c
                      || bool_decide (c ∈ [chr_space; chr_hyphen; chr_underscore])
                   then [c] else lit "_") <$> name) in
  let safe_name := replace chr_space (lit "_") (strip safe_name) in
  safe_name.

(** The sanitisation as the specification words it: three passes over the
    name. *)
Definition keeps (c : N) : bool :=
  isalnum c || bool_decide (c = chr_space) || bool_decide (c = chr_hyphen)
  || bool_decide (c = chr_underscore).

Definition spec_substitute (name : str) : str :=
  (λ c, if keeps c then c else chr_underscore) <$> name.

Definition spec_trim (s : str) : str :=
  reverse (lstrip (reverse (lstrip s))).

Definition spec_spaces_to_underscores (s : str) : str :=
  (λ c, if bool_decide (c = chr_space) then chr_underscore else c) <$> s.

Definition spec_sanitize (name : str) : str :=
  spec_spaces_to_underscores (spec_trim (spec_substitute name)).
End Text.

(** A runtime that knows ASCII only: no code point from 128 on is a letter,
    a digit or white space, and [float] accepts a few decimal literals.  It
    agrees with CPython on every string evaluated in this file. *)
Definition small_float_of_str (s : str) : option float :=
  if decide (s = lit "12") then Some 12%float
  else if decide (s = lit "2.5") then Some 2.5%float
  else if decide (s = lit "100") then Some 100%float
  else None.

Definition small_float_repr (f : float) : str :=
  if PrimFloat.Leibniz.eqb f 1.5 then lit "1.5"
  else if PrimFloat.Leibniz.eqb f 0x1.3333333333333p+0 then lit "1.2"
  else if PrimFloat.Leibniz.eqb f 12 then lit "12.0"
  else if PrimFloat.Leibniz.eqb f 2.5 then lit "2.5"
  else if PrimFloat.Leibniz.eqb f 100 then lit "100.0"
  else lit "?".

Definition ascii_runtime : Runtime := {|
  unicode_isalnum := λ _, false;
  unicode_isspace := λ _, false;
  float_of_str := small_float_of_str;
  float_repr := small_float_repr;
|}.

(** ** Parameters and the record reader *)

(** The numbers of the script: [DEFAULT_PARAMS] holds both [int] and
    [float] literals, and [float(sval)] yields a [float]. *)
Inductive pyval :=
  | PyInt (z : Z)
  | PyFloat (x : float).

Definition is_float (v : pyval) : bool :=
  match v with PyFloat _ => true | PyInt _ => false end.

(** [DEFAULT_PARAMS] (lines 19-29), in the order the literal lists the keys;
    1.2 is the binary64 value nearest to it. *)
Definition DEFAULT_PARAMS_items : list (str * pyval) :=
  [ (lit "nametag_width", PyInt 80);
    (lit "nametag_height", PyInt 30);
    (lit "nametag_thickness", PyInt 3);
    (lit "text_size", PyInt 8);
    (lit "text_height", PyFloat 1.5);
    (lit "ring_width", PyInt 3);
    (lit "ring_height", PyFloat 0x1.3333333333333p+0);
    (lit "mounting_hole_diameter", PyInt 4);
    (lit "corner_radius", PyInt 3) ].

Definition DEFAULT_PARAMS : gmap str pyval := list_to_map DEFAULT_PARAMS_items.

(** [DEFAULT_PARAMS.keys()] *)
Definition DEFAULT_PARAMS_keys : list str := DEFAULT_PARAMS_items.*1.

(** One row as [csv.DictReader] yields it: a dictionary from the header's
    field names to the cell, or to [None] (the reader's [restval]) where the
    line is short. *)
Abbreviation Row := (gmap str (option str)).

(** [row.get(key)] *)
Definition row_get (row : Row) (key : str) : option str :=
  match row !! key with
  | Some (Some cell) => Some cell
  | Some None | None => None
  end.

(** An element of [names_data]: the dictionary with the keys "name" and
    "params". *)
Record NameData := {
  nd_name : str;
  nd_params : gmap str pyval;
}.

Section ReadCsv.
Context {rt : Runtime}.

(** The body of the inner loop (lines 213-225), for one [key]. *)
Definition override_param (row : Row) (params : gmap str pyval) (key : str)
  : gmap str pyval :=
  match row_get row key with
  | None => params
  | Some raw_val =>
      let sval := strip raw_val in
      if decide (sval = []) then params
      else match float_of_str sval with
           | Some x => <[key := PyFloat x]> params
           | None => params
           end
  end.

(** The body of the outer loop (lines 201-227), for one [row].  The rows
    of a [DictReader] are dictionaries and their cells are strings, so the
    guards [row is not None] hold and [str(raw_name)] is [raw_name]. *)
Definition read_csv_row (names_data : list NameData) (row : Row)
  : list NameData :=
  match row_get row (lit "name") with
  | None => names_data
  | Some raw_name =>
      if decide (strip raw_name = []) then names_data
      else
        let name := strip raw_name in
        let params := DEFAULT_PARAMS in
        let params := foldl (override_param row) params DEFAULT_PARAMS_keys in
        names_data ++ [ {| nd_name := name; nd_params := params |} ]
  end.

(** [read_csv] (lines 194-229) on the rows the reader yields. *)
Definition read_csv (rows : list Row) : list NameData :=
  foldl read_csv_row [] rows.

(** The specification's reading of a row: its display name, if it has
    one, and for each key the value that overrides the default. *)
Definition display_name (row : Row) : option str :=
  match row_get row (lit "name") with
  | Some raw => if decide (strip raw = []) then None else Some (strip raw)
  | None => None
  end.

Definition nameless (row : Row) : bool :=
  bool_decide (display_name row = None).

Definition override_value (row : Row) (key : str) : option float :=
  match row_get row key with
  | Some raw => if decide (strip raw = []) then None else float_of_str (strip raw)
  | None => None
  end.

Definition resolved_value (row : Row) (key : str) (default : pyval) : pyval :=
  match override_value row key with
  | Some x => PyFloat x
  | None => default
  end.

Definition resolved_params (row : Row) : gmap str pyval :=
  foldl (override_param row) DEFAULT_PARAMS DEFAULT_PARAMS_keys.

Definition request_of (row : Row) : option NameData :=
  (λ n, {| nd_name := n; nd_params := resolved_params row |}) <$> display_name row.
End ReadCsv.

(** ** The world: files, console, child processes *)

(** The exceptions the script meets; each is an instance of [Exception].
    [OSError] stands for the operating-system errors that are neither of its
    two subclasses listed before it. *)
Inductive exn_class :=
  | KeyError
  | FileNotFoundError
  | PermissionError
  | OSError
  | TimeoutExpired.

Global Instance exn_class_eq_dec : EqDecision exn_class.
Proof. solve_decision. Defined.

(** An exception and its [str(e)]. *)
Record exn := Exn {
  exn_kind : exn_class;
  exn_text : str;
}.

(** Regular files by path with their text, and what [print] wrote, one
    entry per call. *)
Record World := {
  files : gmap str str;
  stdout : list str;
}.

(** What [subprocess.run] hands back: a [CompletedProcess] (its return code
    and captured standard error) or an exception. *)
Inductive run_result :=
  | Completed (returncode : Z) (stderr : str)
  | RunRaised (e : exn).

(** What the operating system decides: the effect of running a command
    line under a timeout (in seconds) on the files, whether a file may be
    opened for writing, whether writing a text into the file just opened
    breaks off (a full disk, say) and what the file then holds, whether an
    existing file may be removed, whether a directory may be created, the
    absolute form of a path, and the rows [csv.DictReader] yields from a
    file (or the exception that opening or decoding it raises). *)
Class System := {
  spawn : list str → N → gmap str str → run_result * gmap str str;
  open_error : str → gmap str str → option exn;
  write_error : str → str → gmap str str → option (exn * str);
  unlink_error : str → gmap str str → option exn;
  mkdir_error : str → gmap str str → option exn;
  abspath : str → str;
  csv_DictReader : str → gmap str str → exn + list Row;
}.

(** A computation returns, raises, or leaves through [sys.exit]. *)
Inductive result (A : Type) :=
  | Return (a : A) (w : World)
  | Raise (e : exn) (w : World)
  | Exit (code : Z) (w : World).
Arguments Return {A} a w.
Arguments Raise {A} e w.
Arguments Exit {A} code w.

Definition M (A : Type) : Type := World → result A.

Definition ret {A} (a : A) : M A := λ w, Return a w.

Definition bind {A B} (m : M A) (k : A → M B) : M B :=
  λ w, match m w with
       | Return a w' => k a w'
       | Raise e w' => Raise e w'
       | Exit c w' => Exit c w'
       end.

Definition raise {A} (e : exn) : M A := λ w, Raise e w.

(** [sys.exit(code)] *)
Definition sys_exit {A} (code : Z) : M A := λ w, Exit code w.

(** [try: body except Exception as e: handler e] *)
Definition try_except {A} (body : M A) (handler : exn → M A) : M A :=
  λ w, match body w with
       | Raise e w' => handler e w'
       | r => r
       end.

Global Instance M_ret : MRet M := @ret.
Global Instance M_bind : MBind M := λ A B k m, bind m k.

Definition set_files (fs : gmap str str) (w : World) : World :=
  {| files := fs; stdout := stdout w |}.

(** [print(text, end=end_)] *)
Definition print_end (text end_ : str) : M () :=
  λ w, Return () {| files := files w; stdout := stdout w ++ [text ++ end_] |}.

(** [print(text)] *)
Definition print (text : str) : M () := print_end text [chr_newline].

(** [os.path.exists(path)] *)
Definition os_path_exists (path : str) : M bool :=
  λ w, Return (bool_decide (is_Some (files w !! path))) w.

(** [os.path.join(a, b)] of [posixpath]. *)
Definition os_path_join (a b : str) : str :=
  if bool_decide (head b = Some 47) then b
  else if bool_decide (a = [] ∨ last a = Some 47) then a ++ b
  else a ++ lit "/" ++ b.

(** The number of a decimal literal, [str(n)] of an [int]. *)
Definition str_of_int (z : Z) : str := lit (pretty z).
Definition str_of_nat (n : nat) : str := lit (pretty n).

Section Generator.
Context {rt : Runtime} {sys : System}.

(** [os.remove(path)]; a missing file raises [FileNotFoundError] with the
    text CPython gives it. *)
Definition os_remove (path : str) : M () :=
  λ w, match files w !! path with
       | None =>
           Raise (Exn FileNotFoundError
                    (lit "[Errno 2] No such file or directory: '" ++ path ++ lit "'")) w
       | Some _ =>
           match unlink_error path (files w) with
           | Some e => Raise e w
           | None => Return () (set_files (delete path (files w)) w)
           end
       end.

(** [with open(path, "w", encoding="utf-8") as f: f.write(text)].  When
    [open] raises, nothing has changed.  Once the file is open it exists,
    emptied; when writing or closing it raises, the exception leaves the
    [with] block and the file holds what was written until then. *)
Definition write_text (path text : str) : M () :=
  λ w, match open_error path (files w) with
       | Some e => Raise e w
       | None =>
           match write_error path text (files w) with
           | Some (e, partial) =>
               Raise e (set_files (<[path := partial]> (files w)) w)
           | None => Return () (set_files (<[path := text]> (files w)) w)
           end
       end.

(** [subprocess.run(args, capture_output=True, timeout=timeout)] *)
Definition subprocess_run (args : list str) (timeout : N) : M (Z * str) :=
  λ w, match spawn args timeout (files w) with
       | (Completed rc err, fs) => Return (rc, err) (set_files fs w)
       | (RunRaised e, fs) => Raise e (set_files fs w)
       end.

(** [find_openscad] (lines 32-52). *)
Definition possible_paths : list str :=
  [ lit "openscad";
    lit "/usr/bin/openscad";
    lit "/usr/local/bin/openscad";
    lit "C:\Program Files\OpenSCAD\openscad.exe";
    lit "C:\Program Files (x86)\OpenSCAD\openscad.exe";
    lit "/Applications/OpenSCAD.app/Contents/MacOS/OpenSCAD" ].

(** The exceptions [find_openscad] names in its [except] clause. *)
Definition swallowed (e : exn) : bool :=
  bool_decide (exn_kind e ∈ [FileNotFoundError; TimeoutExpired; PermissionError]).

Fixpoint find_openscad_from (paths : list str) : M (option str) :=
  match paths with
  | [] => ret None
  | path :: paths' =>
      found ← try_except
        (result ← subprocess_run [path; lit "--version"] 5;
         if bool_decide (result.1 = 0%Z)
         then print (lit "Found OpenSCAD at: " ++ path);; ret true
         else ret false)
        (λ e, if swallowed e then ret false else raise e);
      if found : bool then ret (Some path) else find_openscad_from paths'
  end.

Definition find_openscad : M (option str) := find_openscad_from possible_paths.
End Generator.

(** ** The script template *)

(** The f-string of [create_temp_scad], line by line: literal text (with
    the doubled braces already read as single ones), a double quote, and the
    two kinds of replacement field. *)
Inductive piece :=
  | Text (s : string)
  | Quote
  | Name
  | Param (key : string).

Definition SCAD_TEMPLATE : list (list piece) :=
  [ [Text "// Auto-generated nametag for: "; Name];
    [];
    [Text "// Parameters"];
    [Text "name = "; Quote; Name; Quote; Text ";"];
    [Text "nametag_width = "; Param "nametag_width"; Text ";"];
    [Text "nametag_height = "; Param "nametag_height"; Text ";"];
    [Text "nametag_thickness = "; Param "nametag_thickness"; Text ";"];
    [Text "text_size = "; Param "text_size"; Text ";"];
    [Text "text_height = "; Param "text_height"; Text ";"];
    [Text "ring_width = "; Param "ring_width"; Text ";"];
    [Text "ring_height = "; Param "ring_height"; Text ";"];
    [Text "mounting_hole_diameter = "; Param "mounting_hole_diameter"; Text ";"];
    [Text "corner_radius = "; Param "corner_radius"; Text ";"];
    [];
    [Text "// Main nametag module"];
    [Text "module nametag() {"];
    [Text "    difference() {"];
    [Text "        union() {"];
    [Text "            // Main body: rectangle on one side, semicircle on the other"];
    [Text "            nametag_body(nametag_width, nametag_height, nametag_thickness, corner_radius);"];
    [Text "            "];
    [Text "            // Elevated ring around the border"];
    [Text "            elevated_ring(nametag_width, nametag_height, nametag_thickness, ring_width, ring_height, corner_radius);"];
    [Text "            "];
    [Text "            // Raised text on top"];
    [Text "            translate([nametag_width/2, nametag_height/2, nametag_thickness])"];
    [Text "                linear_extrude(height = text_height)"];
    [Text "                    text(name, size = text_size, halign = "; Quote; Text "center"; Quote; Text ", valign = "; Quote; Text "center"; Quote; Text ", font = "; Quote; Text "Liberation Sans:style=Bold"; Quote; Text ");"];
    [Text "        }"];
    [Text "        "];
    [Text "        // Mounting hole in the center of the circular side"];
    [Text "        translate([nametag_width, nametag_height/2, -0.5])"];
    [Text "            cylinder(h = nametag_thickness + ring_height + text_height + 1, d = mounting_hole_diameter, $fn = 30);"];
    [Text "    }"];
    [Text "}"];
    [];
    [Text "// Module to create the main body shape (rectangle + semicircle)"];
    [Text "module nametag_body(width, height, thickness, radius) {"];
    [Text "    hull() {"];
    [Text "        // Rectangular side with rounded corners (left side)"];
    [Text "        translate([radius, radius, 0])"];
    [Text "            cylinder(r = radius, h = thickness, $fn = 30);"];
    [Text "        translate([radius, height - radius, 0])"];
    [Text "            cylinder(r = radius, h = thickness, $fn = 30);"];
    [Text "        "];
    [Text "        // Semicircle on the right side"];
    [Text "        translate([width, height/2, 0])"];
    [Text "            cylinder(r = height/2, h = thickness, $fn = 60);"];
    [Text "    }"];
    [Text "}"];
    [];
    [Text "// Module to create the elevated ring"];
    [Text "module elevated_ring(width, height, thickness, ring_w, ring_h, radius) {"];
    [Text "    difference() {"];
    [Text "        // Outer shape (same as body but elevated)"];
    [Text "        translate([0, 0, thickness])"];
    [Text "            hull() {"];
    [Text "                // Rectangular side with rounded corners"];
    [Text "                translate([radius, radius, 0])"];
    [Text "                    cylinder(r = radius, h = ring_h, $fn = 30);"];
    [Text "                translate([radius, height - radius, 0])"];
    [Text "                    cylinder(r = radius, h = ring_h, $fn = 30);"];
    [Text "                "];
    [Text "                // Semicircle on the right side"];
    [Text "                translate([width, height/2, 0])"];
    [Text "                    cylinder(r = height/2, h = ring_h, $fn = 60);"];
    [Text "            }"];
    [Text "        "];
    [Text "        // Inner cutout (smaller shape)"];
    [Text "        translate([0, 0, thickness - 0.5])"];
    [Text "            hull() {"];
    [Text "                // Inner rectangular side"];
    [Text "                translate([radius + ring_w, radius + ring_w, 0])"];
    [Text "                    cylinder(r = radius, h = ring_h + 1, $fn = 30);"];
    [Text "                translate([radius + ring_w, height - radius - ring_w, 0])"];
    [Text "                    cylinder(r = radius, h = ring_h + 1, $fn = 30);"];
    [Text "                "];
    [Text "                // Inner semicircle (smaller radius)"];
    [Text "                translate([width, height/2, 0])"];
    [Text "                    cylinder(r = height/2 - ring_w, h = ring_h + 1, $fn = 60);"];
    [Text "            }"];
    [Text "    }"];
    [Text "}"];
    [];
    [Text "// Generate the nametag"];
    [Text "nametag();"] ].

Section Rendering.
Context {rt : Runtime} {sys : System}.

(** [format(v, "")], what a replacement field inserts for a number. *)
Definition format_value (v : pyval) : str :=
  match v with
  | PyInt z => str_of_int z
  | PyFloat x => float_repr x
  end.

(** The text of one piece, or the key whose lookup raises [KeyError]. *)
Definition render_piece (name : str) (params : gmap str pyval) (p : piece)
  : string + str :=
  match p with
  | Text s => inr (lit s)
  | Quote => inr [chr_quote]
  | Name => inr name
  | Param key =>
      match params !! lit key with
      | Some v => inr (format_value v)
      | None => inl key
      end
  end.

(** The pieces are evaluated from left to right; the first failing lookup
    ends the evaluation. *)
Fixpoint render_pieces (name : str) (params : gmap str pyval) (ps : list piece)
  : string + str :=
  match ps with
  | [] => inr []
  | p :: ps' =>
      match render_piece name params p with
      | inl key => inl key
      | inr text =>
          match render_pieces name params ps' with
          | inl key => inl key
          | inr rest => inr (text ++ rest)
          end
      end
  end.

(** Every line of the template ends with a line feed. *)
Definition template_pieces : list piece :=
  line ← SCAD_TEMPLATE; line ++ [Text (String (Ascii.ascii_of_N 10) EmptyString)].

(** [scad_content] of [create_temp_scad] (lines 57-143). *)
Definition scad_content (name : str) (params : gmap str pyval) : string + str :=
  render_pieces name params template_pieces.

(** [create_temp_scad] (lines 55-146). *)
Definition create_temp_scad (name : str) (params : gmap str pyval)
  (temp_file : str) : M () :=
  match scad_content name params with
  | inl key => raise (Exn KeyError (lit "'" ++ lit key ++ lit "'"))
  | inr text => write_text temp_file text
  end.

(** The two paths [generate_stl] derives from the name (lines 159-161). *)
Definition temp_scad_path (output_dir name : str) : str :=
  let safe_name := sanitize_filename name in
  os_path_join output_dir (lit "temp_" ++ safe_name ++ lit ".scad").

Definition output_stl_path (output_dir name : str) : str :=
  let safe_name := sanitize_filename name in
  os_path_join output_dir (safe_name ++ lit ".stl").

(** [generate_stl] (lines 157-191); the check mark is U+2713 and the
    ballot cross U+2717.  [present] is the condition of line 176, whose
    [and] asks [os.path.exists] only after a return code of zero. *)
Definition generate_stl (openscad_path name : str) (params : gmap str pyval)
  (output_dir : str) : M bool :=
  let temp_scad := temp_scad_path output_dir name in
  let output_stl := output_stl_path output_dir name in
  create_temp_scad name params temp_scad;;
  print_end (lit "Generating STL for: " ++ name ++ lit "...") (lit " ");;
  try_except
    (result ← subprocess_run [openscad_path; lit "-o"; output_stl; temp_scad] 60;
     present ← (if bool_decide (result.1 = 0%Z)
                then os_path_exists output_stl else ret false);
     if present : bool
     then
       print (10003 :: lit " Success");;
       os_remove temp_scad;;
       ret true
     else
       print (10007 :: lit " Failed");;
       (if bool_decide (result.2 ≠ [])
        then print (lit "  Error: " ++ result.2) else ret ());;
       ret false)
    (λ e, if bool_decide (exn_kind e = TimeoutExpired)
          then print (10007 :: lit " Timeout");; ret false
          else print (10007 :: lit " Error: " ++ exn_text e);; ret false).

(** ** The main program *)

Definition OUTPUT_DIR : str := lit "generated_nametags".
Definition CSV_FILE : str := lit "names.csv".

(** The loop of [main] (lines 277-285); [i] is the count [enumerate]
    yields and [total] is [len(names_data)]. *)
Fixpoint main_loop (openscad_path : str) (total i : nat)
  (names_data : list NameData) (successful failed : nat) : M (nat * nat) :=
  match names_data with
  | [] => ret (successful, failed)
  | data :: rest =>
      print_end (lit "[" ++ str_of_nat i ++ lit "/" ++ str_of_nat total ++ lit "] ") [];;
      ok ← generate_stl openscad_path (nd_name data) (nd_params data) OUTPUT_DIR;
      if ok : bool
      then main_loop openscad_path total (S i) rest (S successful) failed
      else main_loop openscad_path total (S i) rest successful (S failed)
  end.

Definition banner : str := replicate 60 61.

(** The summary of [main] (lines 287-294). *)
Definition main_summary (successful failed : nat) : M () :=
  print [];;
  print banner;;
  print (lit "Generation Complete!");;
  print (lit "Successful: " ++ str_of_nat successful);;
  print (lit "Failed: " ++ str_of_nat failed);;
  print (lit "Output location: " ++ abspath OUTPUT_DIR);;
  print banner.

(** [Path(OUTPUT_DIR).mkdir(exist_ok=True)]: directories are not part of
    the file map, so only a refusal is visible. *)
Definition mkdir (path : str) : M () :=
  λ w, match mkdir_error path (files w) with
       | Some e => Raise e w
       | None => Return () w
       end.

(** [read_csv(CSV_FILE)] inside [main]: opening the file and iterating the
    reader, then the loop of [read_csv] over the rows. *)
Definition read_csv_file (csv_file : str) : M (list NameData) :=
  λ w, match csv_DictReader csv_file (files w) with
       | inl e => Raise e w
       | inr rows => Return (read_csv rows) w
       end.

(** [main] (lines 232-294). *)
Definition main : M () :=
  print banner;;
  print (lit "Automatic Nametag STL Generator");;
  print banner;;
  print [];;
  csv_present ← os_path_exists CSV_FILE;
  if negb csv_present
  then
    print (lit "Error: CSV file '" ++ CSV_FILE ++ lit "' not found!");;
    print (chr_newline :: lit "Please create a CSV file with at least a 'name' column.");;
    print (lit "Example CSV content:");;
    print (lit "name");;
    print (lit "John Smith");;
    print (lit "Jane Doe");;
    print (lit "Alice Johnson");;
    sys_exit 1
  else
    found ← find_openscad;
    match found with
    | None | Some [] =>
        print (lit "Error: OpenSCAD not found!");;
        print (chr_newline :: lit "Please install OpenSCAD from: https://openscad.org/downloads.html");;
        print (lit "Or ensure it's in your system PATH.");;
        sys_exit 1
    | Some openscad_path =>
        mkdir OUTPUT_DIR;;
        print (lit "Output directory: " ++ OUTPUT_DIR);;
        print [];;
        names_data ← try_except (read_csv_file CSV_FILE)
          (λ e, print (lit "Error reading CSV file: " ++ exn_text e);; sys_exit 1);
        if bool_decide (names_data = [])
        then print (lit "Error: No valid names found in CSV file!");; sys_exit 1
        else
          print (lit "Found " ++ str_of_nat (length names_data) ++ lit " name(s) to process");;
          print [];;
          counts ← main_loop openscad_path (length names_data) 1 names_data 0 0;
          main_summary counts.1 counts.2
    end.
End Rendering.

(** ** A small operating system for the examples *)

(** What the stand-in for [openscad] does with one script: write the model,
    fail with a message, run into the timeout, or write the model and
    remove its input. *)
Inductive tool_behaviour :=
  | Renders
  | Fails (returncode : Z) (stderr : str)
  | Hangs
  | RendersAndRemovesScript.

(** The last component of a path. *)
Fixpoint basename_from (seen path : str) : str :=
  match path with
  | [] => reverse seen
  | c :: path' => if bool_decide (c = 47) then basename_from [] path'
                  else basename_from (c :: seen) path'
  end.

Definition basename (path : str) : str := basename_from [] path.

(** The model a rendering writes: a function of the script. *)
Definition toy_model (script : str) : str := lit "solid " ++ script.

(** The stand-in for [subprocess.run]: the version query succeeds for the
    third candidate of [find_openscad] only, and a rendering behaves as
    [tool] says for its output path.  The texts of the exceptions are the
    system's short messages. *)
Definition toy_spawn (tool : str → tool_behaviour) (args : list str)
  (timeout : N) (fs : gmap str str) : run_result * gmap str str :=
  match args with
  | [path; flag] =>
      if bool_decide (flag = lit "--version" ∧ path = lit "/usr/local/bin/openscad")
      then (Completed 0 [], fs)
      else if bool_decide (path = lit "/usr/bin/openscad")
      then (RunRaised (Exn PermissionError (lit "[Errno 13] Permission denied")), fs)
      else (RunRaised (Exn FileNotFoundError (lit "[Errno 2] No such file or directory")), fs)
  | [path; flag; output; script] =>
      match tool output, fs !! script with
      | Renders, Some text => (Completed 0 [], <[output := toy_model text]> fs)
      | RendersAndRemovesScript, Some text =>
          (Completed 0 [], delete script (<[output := toy_model text]> fs))
      | Fails rc err, _ => (Completed rc err, fs)
      | Hangs, _ => (RunRaised (Exn TimeoutExpired (lit "timed out after 60 seconds")), fs)
      | _, None => (Completed 1 (lit "Can't open input file"), fs)
      end
  | _ => (RunRaised (Exn FileNotFoundError (lit "[Errno 2] No such file or directory")), fs)
  end.

(** A file name longer than 255 characters cannot be created (the limit of
    the common file systems, in bytes; the names of the examples are ASCII);
    everything else is permitted. *)
Definition toy_system (tool : str → tool_behaviour) (rows : list Row) : System := {|
  spawn := toy_spawn tool;
  open_error path fs :=
    if bool_decide (255 < length (basename path))%nat
    then Some (Exn OSError (lit "[Errno 36] File name too long: '" ++ path ++ lit "'"))
    else None;
  write_error _ _ _ := None;
  unlink_error _ _ := None;
  mkdir_error _ _ := None;
  abspath path := lit "/home/user/" ++ path;
  csv_DictReader _ _ := inr rows;
|}.

Definition empty_world : World := {| files := ∅; stdout := [] |}.

(** A row from its cells. *)
Definition row_of (cells : list (string * string)) : Row :=
  list_to_map ((λ kv, (lit kv.1, Some (lit kv.2))) <$> cells).

(** What a run left behind. *)
Definition returned {A} (r : result A) : option A :=
  match r with Return a _ => Some a | _ => None end.

Definition raised {A} (r : result A) : option exn :=
  match r with Raise e _ => Some e | _ => None end.

Definition world_after {A} (r : result A) : World :=
  match r with Return _ w | Raise _ w | Exit _ w => w end.

(** The text of a rendering that did not fail. *)
Definition rendered (r : string + str) : str :=
  match r with inr text => text | inl _ => [] end.

(** ** Notions of the statements *)

Section Notions.
Context {rt : Runtime} {sys : System}.

(** The generation succeeds: the process ends with code zero, the model
    exists afterwards, and the script is still there to be removed. *)
Definition succeeds (output_stl temp_scad : str) (res : run_result)
  (fs : gmap str str) : Prop :=
  (∃ err, res = Completed 0 err) ∧ is_Some (fs !! output_stl)
  ∧ is_Some (fs !! temp_scad) ∧ unlink_error temp_scad fs = None.

(** The claim's condition alone: code zero and the model exists. *)
Definition exits_zero_with_model (output_stl : str) (res : run_result)
  (fs : gmap str str) : Prop :=
  (∃ err, res = Completed 0 err) ∧ is_Some (fs !! output_stl).

(** What [generate_stl] prints before it starts the process. *)
Definition announced (name : str) (w : World) : list str :=
  stdout w ++ [(lit "Generating STL for: " ++ name ++ lit "...") ++ lit " "].

(** The version query [find_openscad] runs on a candidate. *)
Definition version_query (path : str) (fs : gmap str str)
  : run_result * gmap str str :=
  spawn [path; lit "--version"] 5 fs.

(** A candidate is passed over: its query ends with a non-zero code, or
    raises one of the three exceptions the [except] clause names. *)
Definition declines (res : run_result) : Prop :=
  match res with
  | Completed rc _ => rc ≠ 0%Z
  | RunRaised e => swallowed e = true
  end.

(** The candidates of a list are passed over one after the other, each
    query running in the world the one before left. *)
Inductive passes_over : list str → World → World → Prop :=
  | passes_nil w : passes_over [] w w
  | passes_cons path paths w res fs w' :
      version_query path (files w) = (res, fs) →
      declines res →
      passes_over paths (set_files fs w) w' →
      passes_over (path :: paths) w w'.

(** The world after a candidate is confirmed. *)
Definition confirmed_world (path : str) (fs : gmap str str) (w : World) : World :=
  {| files := fs;
     stdout := stdout w ++ [(lit "Found OpenSCAD at: " ++ path) ++ [chr_newline]] |}.

(** The keys the template asks for. *)
Definition template_keys : list str :=
  omap (λ p, match p with Param key => Some (lit key) | _ => None end)
       template_pieces.

End Notions.

(** The three rows of the specification's end-to-end scenario, the third
    with one more cell: "Jane Doe", an empty name, and "Bob" with the text
    size "abc" and the ring width " 12 ". *)
Definition scenario_rows : list Row :=
  [ row_of [("name", "Jane Doe")];
    row_of [("name", "")];
    row_of [("name", "Bob"); ("text_size", "abc"); ("ring_width", " 12 ")] ].

(** ** Notions of the further properties *)

Section FurtherNotions.
Context {rt : Runtime} {sys : System}.

(** A character a sanitised name may hold. *)
Definition safe_char (c : N) : Prop :=
  isalnum c = true ∨ c = chr_hyphen ∨ c = chr_underscore.

(** The first four lines of every script: the display name is inserted
    twice, as it is. *)
Definition scad_header (name : str) : str :=
  lit "// Auto-generated nametag for: " ++ name ++ [chr_newline; chr_newline]
  ++ lit "// Parameters" ++ [chr_newline]
  ++ lit "name = " ++ [chr_quote] ++ name ++ [chr_quote] ++ lit ";"
  ++ [chr_newline].

(** Two rows agree on the cells [read_csv] looks at. *)
Definition same_cells (row row' : Row) : Prop :=
  ∀ key, key ∈ lit "name" :: DEFAULT_PARAMS_keys → row_get row key = row_get row' key.

(** The world after some lines were printed, one [print] each. *)
Definition printed (lines : list str) (w : World) : World :=
  foldl (λ w line, {| files := files w; stdout := stdout w ++ [line] |}) w lines.

(** The world after the four lines [main] prints first. *)
Definition greeted (w : World) : World :=
  printed [ banner ++ [chr_newline];
            lit "Automatic Nametag STL Generator" ++ [chr_newline];
            banner ++ [chr_newline];
            [chr_newline] ] w.

(** The lines [main] prints when the CSV file is missing. *)
Definition csv_missing_lines : list str :=
  [ (lit "Error: CSV file '" ++ CSV_FILE ++ lit "' not found!") ++ [chr_newline];
    (chr_newline :: lit "Please create a CSV file with at least a 'name' column.")
      ++ [chr_newline];
    lit "Example CSV content:" ++ [chr_newline];
    lit "name" ++ [chr_newline];
    lit "John Smith" ++ [chr_newline];
    lit "Jane Doe" ++ [chr_newline];
    lit "Alice Johnson" ++ [chr_newline] ].

(** The lines [main] prints when no executable answers. *)
Definition tool_missing_lines : list str :=
  [ lit "Error: OpenSCAD not found!" ++ [chr_newline];
    (chr_newline :: lit "Please install OpenSCAD from: https://openscad.org/downloads.html")
      ++ [chr_newline];
    lit "Or ensure it's in your system PATH." ++ [chr_newline] ].

(** The two lines [main] prints once the output directory is there. *)
Definition directory_lines : list str :=
  [ (lit "Output directory: " ++ OUTPUT_DIR) ++ [chr_newline]; [chr_newline] ].

(** The lines [main] prints before the loop, for [n] requests. *)
Definition found_lines (n : nat) : list str :=
  [ (lit "Found " ++ str_of_nat n ++ lit " name(s) to process") ++ [chr_newline];
    [chr_newline] ].

(** The seven lines of the summary. *)
Definition summary_lines (successful failed : nat) : list str :=
  [ [chr_newline];
    banner ++ [chr_newline];
    lit "Generation Complete!" ++ [chr_newline];
    (lit "Successful: " ++ str_of_nat successful) ++ [chr_newline];
    (lit "Failed: " ++ str_of_nat failed) ++ [chr_newline];
    (lit "Output location: " ++ abspath OUTPUT_DIR) ++ [chr_newline];
    banner ++ [chr_newline] ].

(** [main] once the tool is found, case by case. *)
Definition main_with_tool (tool : str) (w : World) : result () :=
  match mkdir_error OUTPUT_DIR (files w) with
  | Some e => Raise e w
  | None =>
      match csv_DictReader CSV_FILE (files w) with
      | inl e =>
          Exit 1 (printed [(lit "Error reading CSV file: " ++ exn_text e) ++ [chr_newline]]
                    (printed directory_lines w))
      | inr rows =>
          if bool_decide (read_csv rows = [])
          then Exit 1 (printed [lit "Error: No valid names found in CSV file!" ++ [chr_newline]]
                         (printed directory_lines w))
          else
            match main_loop tool (length (read_csv rows)) 1 (read_csv rows) 0 0
                    (printed (found_lines (length (read_csv rows)))
                       (printed directory_lines w))
            with
            | Return counts w' => Return () (printed (summary_lines counts.1 counts.2) w')
            | Raise e w' => Raise e w'
            | Exit code w' => Exit code w'
            end
      end
  end.

(** The status lines of a failed attempt: the mark, and the captured
    error output when there is some. *)
Definition failed_lines (err : str) : list str :=
  ((10007 :: lit " Failed") ++ [chr_newline])
  :: (if bool_decide (err ≠ []) then [(lit "  Error: " ++ err) ++ [chr_newline]] else []).
End FurtherNotions.

(** A system on which nothing is installed: every command line fails to
    start. *)
Definition bare_system : System := {|
  spawn _ _ fs :=
    (RunRaised (Exn FileNotFoundError (lit "[Errno 2] No such file or directory")), fs);
  open_error _ _ := None;
  write_error _ _ _ := None;
  unlink_error _ _ := None;
  mkdir_error _ _ := None;
  abspath path := lit "/home/user/" ++ path;
  csv_DictReader _ _ := inr scenario_rows;
|}.

(** A system whose disk is full: every file can be opened, and writing
    breaks off after ten characters. *)
Definition full_disk_system : System := {|
  spawn := toy_spawn (λ _, Renders);
  open_error _ _ := None;
  write_error _ text _ :=
    Some (Exn OSError (lit "[Errno 28] No space left on device"), take 10 text);
  unlink_error _ _ := None;
  mkdir_error _ _ := None;
  abspath path := lit "/home/user/" ++ path;
  csv_DictReader _ _ := inr scenario_rows;
|}.

(** A system like the small one whose CSV file cannot be decoded. *)
Definition undecodable_csv_system : System := {|
  spawn := toy_spawn (λ _, Renders);
  open_error _ _ := None;
  write_error _ _ _ := None;
  unlink_error _ _ := None;
  mkdir_error _ _ := None;
  abspath path := lit "/home/user/" ++ path;
  csv_DictReader _ _ :=
    inl (Exn OSError (lit "'utf-8' codec can't decode byte 0xff in position 0"));
|}.

(** * Properties *)

(** ** Text *)

Section TextFacts.
Context {rt : Runtime}.

Lemma join_empty_singletons {A} (f : A → str) (l : list A) :
  join [] (f <$> l) = l ≫= f.
Proof.
  induction l as [|a [|b l] IH]; simpl in *.
  - done.
  - by rewrite app_nil_r.
  - by rewrite IH.
Qed.

Lemma bind_singleton_fmap {A B} (g : A → B) (l : list A) :
  (l ≫= λ a, [g a]) = g <$> l.
Proof. induction l as [|a l IH]; [done | by cbn; f_equal]. Qed.

Lemma bind_ext_list {A B} (f g : A → list B) (l : list A) :
  (∀ a, f a = g a) → l ≫= f = l ≫= g.
Proof. intros E. induction l as [|a l IH]; [done | by cbn; rewrite E, IH]. Qed.

Lemma keeps_membership (c : N) :
  isalnum c || bool_decide (c ∈ [chr_space; chr_hyphen; chr_underscore])
  = keeps c.
Proof.
  unfold keeps. destruct (isalnum c); [done|]. simpl.
  rewrite <- !bool_decide_or. apply bool_decide_ext.
  rewrite !elem_of_cons, elem_of_nil. tauto.
Qed.

Lemma substitute_pass (name : str) :
  join [] ((λ c, if isalnum c
                    || bool_decide (c ∈ [chr_space; chr_hyphen; chr_underscore])
                 then [c] else lit "_") <$> name)
  = spec_substitute name.
Proof.
  rewrite join_empty_singletons. unfold spec_substitute.
  rewrite <- bind_singleton_fmap. apply bind_ext_list. intros c.
  rewrite keeps_membership. by destruct (keeps c).
Qed.

Lemma replace_space_pass (s : str) :
  replace chr_space (lit "_") s = spec_spaces_to_underscores s.
Proof.
  unfold replace, spec_spaces_to_underscores.
  rewrite <- bind_singleton_fmap. apply bind_ext_list. intros c.
  case_decide; case_bool_decide; done.
Qed.

Lemma sanitize_filename_refines (name : str) :
  sanitize_filename name = spec_sanitize name.
Proof.
  unfold sanitize_filename, spec_sanitize.
  by rewrite substitute_pass, replace_space_pass.
Qed.

(** Each character of a sanitised name is alphanumeric, a hyphen or an
    underscore. *)
Lemma sanitize_filename_chars (name : str) (c : N) :
  c ∈ sanitize_filename name →
  isalnum c = true ∨ c = chr_hyphen ∨ c = chr_underscore.
Proof.
  rewrite sanitize_filename_refines. unfold spec_sanitize, spec_spaces_to_underscores.
  intros (d & -> & Hd)%list_elem_of_fmap.
  case_bool_decide; [by auto|].
  unfold spec_trim in Hd.
  assert (Hsub : ∀ s x, x ∈ lstrip s → x ∈ s).
  { induction s as [|y s IH]; simpl; [done|]. intros x.
    destruct (isspace y); [|done]. intros ?%IH. by right. }
  apply elem_of_reverse, Hsub, elem_of_reverse, Hsub in Hd.
  apply list_elem_of_fmap in Hd as (e & -> & _).
  unfold keeps. destruct (isalnum e) eqn:Ha; simpl.
  - by left.
  - repeat case_bool_decide; simpl in *; subst; auto.
Qed.
End TextFacts.

(** ** The record reader *)

Section ReadCsvFacts.
Context {rt : Runtime}.

Lemma override_param_lookup row params key k :
  override_param row params key !! k
  = if decide (k = key)
    then match override_value row key with
         | Some x => Some (PyFloat x)
         | None => params !! key
         end
    else params !! k.
Proof.
  unfold override_param, override_value.
  destruct (row_get row key) as [raw|]; [|by case_decide; subst].
  simpl. destruct (decide (strip raw = [])); [by case_decide; subst|].
  destruct (float_of_str (strip raw)) as [x|]; [|by case_decide; subst].
  rewrite lookup_insert. repeat case_decide; congruence.
Qed.

Lemma override_params_lookup row keys params k :
  foldl (override_param row) params keys !! k
  = if decide (k ∈ keys)
    then match override_value row k with
         | Some x => Some (PyFloat x)
         | None => params !! k
         end
    else params !! k.
Proof.
  revert params. induction keys as [|key keys IH]; intros params; cbn [foldl].
  - by rewrite decide_False by (by intros ?%elem_of_nil).
  - rewrite IH, !override_param_lookup.
    destruct (decide (k = key)) as [->|Hne].
    + rewrite (decide_True (P := key ∈ key :: keys)) by (by left).
      destruct (override_value row key); by repeat case_decide.
    + destruct (decide (k ∈ keys)).
      * by rewrite decide_True by (by right).
      * by rewrite decide_False by (by intros [?|?]%elem_of_cons).
Qed.

Lemma default_present key :
  key ∈ DEFAULT_PARAMS_keys → is_Some (DEFAULT_PARAMS !! key).
Proof.
  intros Hk. apply elem_of_dom. unfold DEFAULT_PARAMS.
  rewrite dom_list_to_map_L. by apply elem_of_list_to_set.
Qed.

Lemma resolved_params_lookup row key default :
  key ∈ DEFAULT_PARAMS_keys → DEFAULT_PARAMS !! key = Some default →
  resolved_params row !! key = Some (resolved_value row key default).
Proof.
  intros Hk Hd. unfold resolved_params, resolved_value.
  rewrite override_params_lookup, decide_True by done.
  by destruct (override_value row key).
Qed.

Lemma resolved_params_dom row :
  dom (resolved_params row) = dom DEFAULT_PARAMS.
Proof.
  apply set_eq. intros k. rewrite !elem_of_dom. unfold resolved_params.
  rewrite override_params_lookup. case_decide as Hk; [|done].
  destruct (override_value row k); [|done].
  split; [intros _; by apply default_present | by eauto].
Qed.

Lemma read_csv_row_request names_data row :
  read_csv_row names_data row = names_data ++ option_list (request_of row).
Proof.
  unfold read_csv_row, request_of, display_name.
  destruct (row_get row (lit "name")) as [raw|];
    [|by cbn [fmap option_fmap option_map option_list]; rewrite app_nil_r].
  destruct (decide (strip raw = []));
    cbn [fmap option_fmap option_map option_list];
    [apply eq_sym, app_nil_r | reflexivity].
Qed.

Lemma read_csv_loop names_data rows :
  foldl read_csv_row names_data rows = names_data ++ omap request_of rows.
Proof.
  revert names_data. induction rows as [|row rows IH]; intros acc; simpl.
  - by rewrite app_nil_r.
  - rewrite IH, read_csv_row_request, <- app_assoc. f_equal.
    by destruct (request_of row).
Qed.

Lemma read_csv_requests rows : read_csv rows = omap request_of rows.
Proof. apply read_csv_loop. Qed.

Lemma length_omap_request rows :
  (length (omap request_of rows) + length (filter (λ r, nameless r = true) rows)
   = length rows)%nat.
Proof.
  induction rows as [|row rows IH]; [done|].
  rewrite filter_cons. cbn [omap list_omap]. fold (omap request_of rows).
  unfold request_of at 1.
  destruct (decide (nameless row = true)) as [Hn|Hn];
    unfold nameless in Hn; rewrite bool_decide_eq_true in Hn.
  - rewrite Hn. cbn [fmap option_fmap option_map length]. lia.
  - destruct (display_name row) as [n|]; [|done].
    cbn [fmap option_fmap option_map length]. lia.
Qed.
End ReadCsvFacts.

(** ** The generator *)

Ltac unfold_M :=
  unfold mbind, M_bind, bind, ret, raise, try_except, print, print_end,
    os_path_exists, os_remove, write_text, subprocess_run, set_files in *;
  cbn [files stdout fst snd] in *.

Lemma returned_Return {A} (r : result A) (a : A) :
  returned r = Some a → r = Return a (world_after r).
Proof. destruct r; cbn; congruence. Qed.

Section GeneratorFacts.
Context {rt : Runtime} {sys : System}.

Lemma create_temp_scad_written name params temp_file text w :
  scad_content name params = inr text →
  open_error temp_file (files w) = None →
  write_error temp_file text (files w) = None →
  create_temp_scad name params temp_file w
  = Return () {| files := <[temp_file := text]> (files w); stdout := stdout w |}.
Proof.
  intros Htext Hopen Hwrite. unfold create_temp_scad. rewrite Htext.
  unfold_M. by rewrite Hopen, Hwrite.
Qed.

Lemma create_temp_scad_inv name params temp_file w w' :
  create_temp_scad name params temp_file w = Return () w' →
  ∃ text, scad_content name params = inr text
          ∧ files w' !! temp_file = Some text.
Proof.
  unfold create_temp_scad. destruct (scad_content name params) as [key|text].
  - by unfold_M.
  - unfold_M. destruct (open_error temp_file (files w)); [done|].
    destruct (write_error temp_file text (files w)) as [[e partial]|]; [done|].
    intros [= <-]. exists text. cbn. by rewrite lookup_insert_eq.
Qed.

Lemma generate_stl_classifies tool name params dir w text res fs :
  let temp_scad := temp_scad_path dir name in
  let output_stl := output_stl_path dir name in
  scad_content name params = inr text →
  open_error temp_scad (files w) = None →
  write_error temp_scad text (files w) = None →
  spawn [tool; lit "-o"; output_stl; temp_scad] 60
    (<[temp_scad := text]> (files w)) = (res, fs) →
  ∃ b w', generate_stl tool name params dir w = Return b w'
          ∧ (b = true ↔ succeeds output_stl temp_scad res fs)
          ∧ files w' = (if b then delete temp_scad fs else fs).
Proof.
  intros temp_scad output_stl Htext Hopen Hwrite Hrun. unfold generate_stl.
  fold temp_scad output_stl. unfold mbind at 1, M_bind, bind at 1.
  rewrite (create_temp_scad_written _ _ _ text) by done.
  unfold_M. rewrite Hrun. unfold succeeds.
  destruct res as [rc err|e]; cbn [fst snd files stdout].
  - destruct (decide (rc = 0%Z)) as [->|Hrc];
      [rewrite bool_decide_eq_true_2 by done
      |rewrite bool_decide_eq_false_2 by done]; cbn [files stdout].
    + destruct (decide (is_Some (fs !! output_stl))) as [Hout|Hout];
        [rewrite bool_decide_eq_true_2 by done
        |rewrite bool_decide_eq_false_2 by done]; cbn [files stdout].
      * destruct (fs !! temp_scad) as [script|] eqn:Htemp; cbn [files stdout].
        -- destruct (unlink_error temp_scad fs) as [e|] eqn:Hunlink;
             cbn [files stdout].
           ++ exists false. case_bool_decide; eexists; (split; [done|]);
                (split; [|done]); (split; [done|]);
                intros (_ & _ & _ & ?); congruence.
           ++ exists true. eexists. split; [done|]. split; [|done].
              split; [|done]. intros _. eauto.
        -- exists false. case_bool_decide; eexists; (split; [done|]);
             (split; [|done]); (split; [done|]);
             intros (_ & _ & [? ?] & _); congruence.
      * exists false. case_bool_decide; eexists; (split; [done|]);
          (split; [|done]); (split; [done|]); by intros (_ & ? & _).
    + exists false. case_bool_decide; eexists; (split; [done|]);
        (split; [|done]); (split; [done|]); intros ([? [= ? ?]] & _); done.
  - exists false. case_bool_decide; eexists; (split; [done|]);
      (split; [|done]); (split; [done|]); by intros ([? ?] & _).
Qed.

(** A timeout of the process is a failure, reported as such. *)
Lemma generate_stl_timeout tool name params dir w text e fs :
  let temp_scad := temp_scad_path dir name in
  let output_stl := output_stl_path dir name in
  scad_content name params = inr text →
  open_error temp_scad (files w) = None →
  write_error temp_scad text (files w) = None →
  spawn [tool; lit "-o"; output_stl; temp_scad] 60
    (<[temp_scad := text]> (files w)) = (RunRaised e, fs) →
  exn_kind e = TimeoutExpired →
  generate_stl tool name params dir w
  = Return false {| files := fs;
                    stdout := announced name w
                              ++ [(10007 :: lit " Timeout") ++ [chr_newline]] |}.
Proof.
  intros temp_scad output_stl Htext Hopen Hwrite Hrun Hkind. unfold generate_stl.
  fold temp_scad output_stl. unfold mbind at 1, M_bind, bind at 1.
  rewrite (create_temp_scad_written _ _ _ text) by done.
  unfold_M. rewrite Hrun. cbn [files stdout].
  by rewrite bool_decide_eq_true_2 by done.
Qed.

(** A script that cannot be written is not a failure of the record: the
    exception leaves [generate_stl], whether the file could not be opened
    or the writing broke off. *)
Lemma generate_stl_unwritable tool name params dir w text e :
  scad_content name params = inr text →
  open_error (temp_scad_path dir name) (files w) = Some e →
  generate_stl tool name params dir w = Raise e w.
Proof.
  intros Htext Hopen. unfold generate_stl, create_temp_scad. rewrite Htext.
  unfold_M. by rewrite Hopen.
Qed.

Lemma generate_stl_write_breaks tool name params dir w text e partial :
  scad_content name params = inr text →
  open_error (temp_scad_path dir name) (files w) = None →
  write_error (temp_scad_path dir name) text (files w) = Some (e, partial) →
  generate_stl tool name params dir w
  = Raise e {| files := <[temp_scad_path dir name := partial]> (files w);
               stdout := stdout w |}.
Proof.
  intros Htext Hopen Hwrite. unfold generate_stl, create_temp_scad.
  rewrite Htext. unfold_M. by rewrite Hopen, Hwrite.
Qed.

(** The two paths of a name never coincide: they end in different
    letters. *)
Lemma os_path_join_last a b : b ≠ [] → last (os_path_join a b) = last b.
Proof.
  intros Hb. apply last_is_Some in Hb as [c Hc]. unfold os_path_join.
  repeat case_bool_decide; rewrite ?last_app, ?Hc; done.
Qed.

Lemma temp_scad_path_last dir name : last (temp_scad_path dir name) = Some 100.
Proof.
  unfold temp_scad_path. rewrite os_path_join_last.
  - change (lit ".scad") with ([46; 115; 99; 97] ++ [100]).
    by rewrite !app_assoc, last_snoc.
  - done.
Qed.

Lemma output_stl_path_last dir name : last (output_stl_path dir name) = Some 108.
Proof.
  unfold output_stl_path.
  change (lit ".stl") with ([46; 115; 116] ++ [108]).
  rewrite os_path_join_last.
  - by rewrite !app_assoc, last_snoc.
  - by destruct (sanitize_filename name).
Qed.

Lemma temp_scad_path_not_output dir name name' :
  temp_scad_path dir name ≠ output_stl_path dir name'.
Proof.
  intros Heq. pose proof (temp_scad_path_last dir name) as Ht.
  rewrite Heq, output_stl_path_last in Ht. done.
Qed.

(** ** The loop of [main] *)

Lemma main_loop_step tool total i data rest s f w :
  main_loop tool total i (data :: rest) s f w
  = match generate_stl tool (nd_name data) (nd_params data) OUTPUT_DIR
            {| files := files w;
               stdout := stdout w ++ [(lit "[" ++ str_of_nat i ++ lit "/"
                                       ++ str_of_nat total ++ lit "] ") ++ []] |}
    with
    | Return true w' => main_loop tool total (S i) rest (S s) f w'
    | Return false w' => main_loop tool total (S i) rest s (S f) w'
    | Raise e w' => Raise e w'
    | Exit c w' => Exit c w'
    end.
Proof.
  cbn [main_loop]. unfold mbind, M_bind, bind, print_end.
  by destruct (generate_stl _ _ _ _ _) as [[] ?| |].
Qed.

Lemma main_loop_counts tool total data :
  ∀ i s f w s' f' w',
    main_loop tool total i data s f w = Return (s', f') w' →
    (s' + f' = s + f + length data)%nat.
Proof.
  induction data as [|d rest IH]; intros i s f w s' f' w' Hrun.
  - cbn in Hrun. unfold ret in Hrun. injection Hrun as -> -> _. cbn. lia.
  - rewrite main_loop_step in Hrun.
    destruct (generate_stl _ _ _ _ _) as [[] w1| |]; [| |done|done];
      apply IH in Hrun; cbn [length]; lia.
Qed.

(** An exception that leaves [generate_stl] leaves the loop. *)
Lemma main_loop_propagates tool total i data rest s f w e w1 :
  generate_stl tool (nd_name data) (nd_params data) OUTPUT_DIR
    {| files := files w;
       stdout := stdout w ++ [(lit "[" ++ str_of_nat i ++ lit "/"
                               ++ str_of_nat total ++ lit "] ") ++ []] |}
  = Raise e w1 →
  main_loop tool total i (data :: rest) s f w = Raise e w1.
Proof. intros Hgen. by rewrite main_loop_step, Hgen. Qed.

(** The loop goes on after a record that failed. *)
Lemma main_loop_continues tool total i data rest s f w w1 :
  generate_stl tool (nd_name data) (nd_params data) OUTPUT_DIR
    {| files := files w;
       stdout := stdout w ++ [(lit "[" ++ str_of_nat i ++ lit "/"
                               ++ str_of_nat total ++ lit "] ") ++ []] |}
  = Return false w1 →
  main_loop tool total i (data :: rest) s f w
  = main_loop tool total (S i) rest s (S f) w1.
Proof. intros Hgen. by rewrite main_loop_step, Hgen. Qed.
End GeneratorFacts.

(** ** The locator *)

Section LocatorFacts.
Context {rt : Runtime} {sys : System}.

Lemma find_openscad_from_declined path paths w res fs :
  version_query path (files w) = (res, fs) → declines res →
  find_openscad_from (path :: paths) w = find_openscad_from paths (set_files fs w).
Proof.
  unfold version_query. intros Hq Hd. cbn [find_openscad_from]. unfold_M.
  rewrite Hq. destruct res as [rc err|e]; cbn [fst snd declines] in *.
  - by rewrite bool_decide_eq_false_2 by done.
  - by rewrite Hd.
Qed.

Lemma find_openscad_from_confirmed path paths w err fs :
  version_query path (files w) = (Completed 0 err, fs) →
  find_openscad_from (path :: paths) w
  = Return (Some path) (confirmed_world path fs w).
Proof.
  unfold version_query. intros Hq. cbn [find_openscad_from]. unfold_M.
  by rewrite Hq.
Qed.

Lemma find_openscad_from_propagates path paths w e fs :
  version_query path (files w) = (RunRaised e, fs) → swallowed e = false →
  find_openscad_from (path :: paths) w = Raise e (set_files fs w).
Proof.
  unfold version_query. intros Hq Hs. cbn [find_openscad_from]. unfold_M.
  by rewrite Hq, Hs.
Qed.

(** The outcome of one query is one of the three above. *)
Lemma version_query_cases path fs :
  (∃ err fs', version_query path fs = (Completed 0 err, fs'))
  ∨ (∃ res fs', version_query path fs = (res, fs') ∧ declines res)
  ∨ (∃ e fs', version_query path fs = (RunRaised e, fs') ∧ swallowed e = false).
Proof.
  destruct (version_query path fs) as [[rc err|e] fs'].
  - destruct (decide (rc = 0%Z)) as [->|Hrc]; [left; eauto|].
    right; left. by exists (Completed rc err), fs'.
  - destruct (swallowed e) eqn:Hs.
    + right; left. by exists (RunRaised e), fs'.
    + right; right. eauto.
Qed.

Lemma passes_over_cons_inv path paths w w' :
  passes_over (path :: paths) w w' →
  ∃ res fs, version_query path (files w) = (res, fs) ∧ declines res
            ∧ passes_over paths (set_files fs w) w'.
Proof. inversion 1; eauto. Qed.

Lemma passes_over_nil_inv w w' : passes_over [] w w' → w' = w.
Proof. by inversion 1. Qed.

Lemma find_openscad_from_none paths : ∀ w w',
  find_openscad_from paths w = Return None w' ↔ passes_over paths w w'.
Proof.
  induction paths as [|path paths IH]; intros w w'.
  - cbn. unfold ret. split.
    + intros [= <-]. constructor.
    + by intros ->%passes_over_nil_inv.
  - destruct (version_query_cases path (files w))
      as [(err & fs & Hq)|[(res & fs & Hq & Hd)|(e & fs & Hq & Hs)]].
    + rewrite (find_openscad_from_confirmed _ _ _ _ _ Hq). split; [done|].
      intros (res & fs' & Hq' & Hd & _)%passes_over_cons_inv.
      rewrite Hq in Hq'. simplify_eq. by cbn in Hd.
    + rewrite (find_openscad_from_declined _ _ _ _ _ Hq Hd), IH. split.
      * intros Hp. by econstructor.
      * intros (res' & fs' & Hq' & _ & Hp)%passes_over_cons_inv.
        rewrite Hq in Hq'. by simplify_eq.
    + rewrite (find_openscad_from_propagates _ _ _ _ _ Hq Hs). split; [done|].
      intros (res & fs' & Hq' & Hd & _)%passes_over_cons_inv.
      rewrite Hq in Hq'. simplify_eq. cbn in Hd. congruence.
Qed.

Lemma find_openscad_from_some paths : ∀ w p w',
  find_openscad_from paths w = Return (Some p) w' ↔
  ∃ before after w1 err fs,
    paths = before ++ p :: after ∧ passes_over before w w1
    ∧ version_query p (files w1) = (Completed 0 err, fs)
    ∧ w' = confirmed_world p fs w1.
Proof.
  induction paths as [|path paths IH]; intros w p w'.
  - cbn. unfold ret. split; [done|].
    intros (before & after & _ & _ & _ & Heq & _). by destruct before.
  - destruct (version_query_cases path (files w))
      as [(err & fs & Hq)|[(res & fs & Hq & Hd)|(e & fs & Hq & Hs)]].
    + rewrite (find_openscad_from_confirmed _ _ _ _ _ Hq). split.
      * intros [= <- <-]. exists [], paths, w, err, fs.
        repeat split; [constructor | done].
      * intros ([|q before] & after & w1 & err' & fs' & Heq & Hp & Hq' & ->);
          simplify_eq/=.
        -- apply passes_over_nil_inv in Hp as ->.
           rewrite Hq in Hq'. by simplify_eq.
        -- apply passes_over_cons_inv in Hp as (res & fs'' & Hq'' & Hd & _).
           rewrite Hq in Hq''. simplify_eq. by cbn in Hd.
    + rewrite (find_openscad_from_declined _ _ _ _ _ Hq Hd), IH. split.
      * intros (before & after & w1 & err & fs' & -> & Hp & Hq' & ->).
        exists (path :: before), after, w1, err, fs'.
        repeat split; [by econstructor | done].
      * intros ([|q before] & after & w1 & err' & fs' & Heq & Hp & Hq' & ->);
          simplify_eq/=.
        -- apply passes_over_nil_inv in Hp as ->.
           rewrite Hq in Hq'. simplify_eq. by cbn in Hd.
        -- apply passes_over_cons_inv in Hp as (res' & fs'' & Hq'' & _ & Hp).
           rewrite Hq in Hq''. simplify_eq.
           exists before, after, w1, err', fs'. done.
    + rewrite (find_openscad_from_propagates _ _ _ _ _ Hq Hs). split; [done|].
      intros ([|q before] & after & w1 & err' & fs' & Heq & Hp & Hq' & ->);
        simplify_eq/=.
      * apply passes_over_nil_inv in Hp as ->.
        rewrite Hq in Hq'. by simplify_eq.
      * apply passes_over_cons_inv in Hp as (res & fs'' & Hq'' & Hd & _).
        rewrite Hq in Hq''. simplify_eq. cbn in Hd. congruence.
Qed.
End LocatorFacts.

(** ** Rendering never fails on the reader's parameter sets *)

Section RenderingFacts.
Context {rt : Runtime} {sys : System}.

Lemma render_pieces_defined name params ps :
  (∀ key, Param key ∈ ps → is_Some (params !! lit key)) →
  ∃ text, render_pieces name params ps = inr text.
Proof.
  induction ps as [|p ps IH]; intros Hkeys; [by eexists|].
  destruct IH as [rest Hrest].
  { intros key Hin. apply Hkeys. by right. }
  cbn [render_pieces]. rewrite Hrest.
  destruct p as [s| | |key]; cbn [render_piece]; try by eexists.
  destruct (Hkeys key) as [v ->]; [by left | by eexists].
Qed.

Lemma template_keys_default key :
  Param key ∈ template_pieces → lit key ∈ DEFAULT_PARAMS_keys.
Proof.
  intros Hin.
  assert (Hk : lit key ∈ template_keys).
  { apply list_elem_of_omap. by exists (Param key). }
  assert (Hall : Forall (λ k, k ∈ DEFAULT_PARAMS_keys) template_keys).
  { apply (bool_decide_unpack _). vm_compute. exact I. }
  by apply (proj1 (Forall_forall _ _) Hall).
Qed.

Lemma scad_content_defined name params :
  (∀ key, key ∈ DEFAULT_PARAMS_keys → is_Some (params !! key)) →
  ∃ text, scad_content name params = inr text.
Proof.
  intros Hkeys. apply render_pieces_defined.
  intros key Hin. by apply Hkeys, template_keys_default.
Qed.

(** Where no script is refused, the loop runs to its end. *)
Lemma main_loop_returns tool total data :
  (∀ path fs, open_error path fs = None) →
  (∀ path text fs, write_error path text fs = None) →
  Forall (λ d, ∀ key, key ∈ DEFAULT_PARAMS_keys → is_Some (nd_params d !! key)) data →
  ∀ i s f w, ∃ s' f' w',
    main_loop tool total i data s f w = Return (s', f') w'.
Proof.
  intros Hopen Hwrite Hdata.
  induction Hdata as [|d rest Hd _ IH]; intros i s f w.
  - by eexists _, _, _.
  - rewrite main_loop_step.
    destruct (scad_content_defined (nd_name d) (nd_params d) Hd) as [text Htext].
    match goal with |- context [generate_stl _ _ _ _ ?w0] => set (w1 := w0) end.
    destruct (spawn [tool; lit "-o"; output_stl_path OUTPUT_DIR (nd_name d);
                     temp_scad_path OUTPUT_DIR (nd_name d)] 60
                (<[temp_scad_path OUTPUT_DIR (nd_name d) := text]> (files w1)))
      as [res fs] eqn:Hrun.
    destruct (generate_stl_classifies tool _ _ _ w1 _ _ _ Htext (Hopen _ _)
                (Hwrite _ _ _) Hrun)
      as (b & w2 & -> & _). destruct b; apply IH.
Qed.
End RenderingFacts.

(** * The claims *)

(** C1 (sanitisation).  For every display name, [sanitize_filename] is the
    composition the specification describes: every character that is not
    alphanumeric, space, hyphen or underscore becomes an underscore, the
    result is trimmed, and every space that remains becomes an underscore.
    In particular "Jane O'Brien" sanitises to "Jane_O_Brien" (the ASCII
    characters of the example are classified without the Unicode tables). *)
Theorem C1_sanitize_filename {rt : Runtime} :
  (∀ name : str, sanitize_filename name = spec_sanitize name)
  ∧ sanitize_filename (lit "Jane O'Brien") = lit "Jane_O_Brien".
Proof.
  split.
  - apply sanitize_filename_refines.
  - reflexivity.
Qed.

(** C2 (parameter overrides).  Take any row of the input that has a display
    name, and any of the nine keys of [DEFAULT_PARAMS].  The reader emits
    the row's request, whatever the parameter cells hold, and in its
    parameter set the key carries the row's value, as a float, exactly when
    the cell is present, non-empty after trimming and accepted by [float];
    in every other case it carries the default. *)
Theorem C2_parameter_override {rt : Runtime} (rows : list Row) (row : Row)
  (name key : str) (default : pyval) :
  row ∈ rows →
  display_name row = Some name →
  DEFAULT_PARAMS !! key = Some default →
  ∃ params,
    {| nd_name := name; nd_params := params |} ∈ read_csv rows
    ∧ (∀ x, override_value row key = Some x → params !! key = Some (PyFloat x))
    ∧ (override_value row key = None → params !! key = Some default).
Proof.
  intros Hrow Hname Hdefault. exists (resolved_params row).
  assert (Hkey : key ∈ DEFAULT_PARAMS_keys).
  { apply (elem_of_list_to_set (C := gset str)).
    unfold DEFAULT_PARAMS_keys. rewrite <- dom_list_to_map_L.
    apply elem_of_dom. by eexists. }
  pose proof (resolved_params_lookup row key default Hkey Hdefault) as Hlook.
  unfold resolved_value in Hlook. split; [|split].
  - rewrite read_csv_requests. apply list_elem_of_omap. exists row.
    split; [done|]. unfold request_of. by rewrite Hname.
  - intros x Hx. by rewrite Hx in Hlook.
  - intros Hx. by rewrite Hx in Hlook.
Qed.

(** The row of "Bob" in the scenario, at the key [text_size], whose cell
    "abc" is no number. *)
Lemma C2_parameter_override_witness :
  ∃ params,
    {| nd_name := lit "Bob"; nd_params := params |}
      ∈ read_csv (rt := ascii_runtime) scenario_rows
    ∧ (∀ x, override_value (rt := ascii_runtime)
              (row_of [("name", "Bob"); ("text_size", "abc"); ("ring_width", " 12 ")])
              (lit "text_size") = Some x →
            params !! lit "text_size" = Some (PyFloat x))
    ∧ (override_value (rt := ascii_runtime)
         (row_of [("name", "Bob"); ("text_size", "abc"); ("ring_width", " 12 ")])
         (lit "text_size") = None →
       params !! lit "text_size" = Some (PyInt 8)).
Proof.
  apply (C2_parameter_override (rt := ascii_runtime)).
  - do 2 right. left.
  - vm_compute. reflexivity.
  - vm_compute. reflexivity.
Defined.

(** The claim C4 as it is worded fails: for a row with a name and no
    parameter cell, the reader's parameter set keeps the default [80] of
    [nametag_width], which is an [int] and not a float. *)
Lemma C4_default_is_not_a_float :
  let names_data := read_csv (rt := ascii_runtime) [row_of [("name", "Ann")]] in
  let width := (names_data !! 0%nat) ≫= (λ d, nd_params d !! lit "nametag_width") in
  nd_name <$> names_data = [lit "Ann"]
  ∧ width = Some (PyInt 80)
  ∧ is_float <$> width = Some false.
Proof. cbv zeta. repeat split; vm_compute; reflexivity. Qed.

(** C4 (the parameter set), amended.  Every parameter set the reader
    produces has exactly the nine keys of [DEFAULT_PARAMS], none absent, and
    each value is either a float taken from the row or the default of its
    key as the source writes it; of the nine defaults, those of
    [text_height] and [ring_height] are floats and the other seven are
    integers. *)
Theorem C4_parameter_set {rt : Runtime} (rows : list Row) (d : NameData) :
  d ∈ read_csv rows →
  dom (nd_params d) = list_to_set DEFAULT_PARAMS_keys
  ∧ (∀ key, key ∈ DEFAULT_PARAMS_keys →
       ∃ v, nd_params d !! key = Some v
            ∧ (is_float v = true ∨ DEFAULT_PARAMS !! key = Some v))
  ∧ (λ kv, (kv.1, is_float kv.2)) <$> DEFAULT_PARAMS_items
    = [ (lit "nametag_width", false); (lit "nametag_height", false);
        (lit "nametag_thickness", false); (lit "text_size", false);
        (lit "text_height", true); (lit "ring_width", false);
        (lit "ring_height", true); (lit "mounting_hole_diameter", false);
        (lit "corner_radius", false) ].
Proof.
  rewrite read_csv_requests. intros (row & _ & Hreq)%list_elem_of_omap.
  unfold request_of in Hreq. destruct (display_name row) as [n|]; [|done].
  injection Hreq as <-. cbn [nd_params]. split; [|split].
  - rewrite resolved_params_dom. unfold DEFAULT_PARAMS.
    by rewrite dom_list_to_map_L.
  - intros key Hkey. destruct (default_present key Hkey) as [default Hdefault].
    rewrite (resolved_params_lookup row key default) by done.
    eexists. split; [done|]. unfold resolved_value.
    destruct (override_value row key); [by left | by right].
  - reflexivity.
Qed.

(** The parameter set of "Bob" in the scenario. *)
Lemma C4_parameter_set_witness :
  let d := {| nd_name := lit "Bob";
              nd_params := resolved_params (rt := ascii_runtime)
                (row_of [("name", "Bob"); ("text_size", "abc"); ("ring_width", " 12 ")]) |} in
  dom (nd_params d) = list_to_set DEFAULT_PARAMS_keys
  ∧ (∀ key, key ∈ DEFAULT_PARAMS_keys →
       ∃ v, nd_params d !! key = Some v
            ∧ (is_float v = true ∨ DEFAULT_PARAMS !! key = Some v))
  ∧ (λ kv, (kv.1, is_float kv.2)) <$> DEFAULT_PARAMS_items
    = [ (lit "nametag_width", false); (lit "nametag_height", false);
        (lit "nametag_thickness", false); (lit "text_size", false);
        (lit "text_height", true); (lit "ring_width", false);
        (lit "ring_height", true); (lit "mounting_hole_diameter", false);
        (lit "corner_radius", false) ].
Proof.
  apply (C4_parameter_set (rt := ascii_runtime) scenario_rows).
  do 1 right. left.
Defined.

(** C5 (rows without a name).  The reader never fails on a row; the rows
    whose name cell is missing, empty or blank are exactly the ones it
    leaves out, so its output is shorter than the input by their number, and
    the names it emits are the display names of the other rows in the order
    of the rows. *)
Theorem C5_nameless_rows_skipped {rt : Runtime} (rows : list Row) :
  length (read_csv rows)
  = (length rows - length (filter (λ r, nameless r = true) rows))%nat
  ∧ nd_name <$> read_csv rows = omap display_name rows
  ∧ read_csv rows = omap request_of rows.
Proof.
  rewrite read_csv_requests. split; [|split; [|done]].
  - pose proof (length_omap_request rows). lia.
  - induction rows as [|row rows IH]; [done|].
    cbn [omap list_omap]. unfold request_of at 1.
    destruct (display_name row); cbn; by rewrite <- ?IH.
Qed.

(** C3 (classification of an attempt).  The code departs from the claim.
    Here the process ends with code zero and the model exists afterwards,
    so the claim calls the attempt a success; [generate_stl] prints the
    success mark, but the process has removed the script, [os.remove]
    raises inside the [try], the catch-all handler prints an error and the
    attempt returns [False], with the model in place. *)
Theorem C3_failure_with_code_zero_and_model :
  let sys := toy_system (λ _, RendersAndRemovesScript) [] in
  let run := generate_stl (rt := ascii_runtime) (sys := sys) (lit "openscad")
               (lit "Ann") DEFAULT_PARAMS (lit "out") empty_world in
  temp_scad_path (rt := ascii_runtime) (lit "out") (lit "Ann") = lit "out/temp_Ann.scad"
  ∧ output_stl_path (rt := ascii_runtime) (lit "out") (lit "Ann") = lit "out/Ann.stl"
  ∧ (∃ text,
       scad_content (rt := ascii_runtime) (lit "Ann") DEFAULT_PARAMS = inr text
       ∧ (spawn (System := sys)
            [lit "openscad"; lit "-o"; lit "out/Ann.stl"; lit "out/temp_Ann.scad"]
            60 (<[lit "out/temp_Ann.scad" := text]> ∅)).1 = Completed 0 [])
  ∧ returned run = Some false
  ∧ bool_decide (is_Some (files (world_after run) !! lit "out/Ann.stl")) = true
  ∧ stdout (world_after run)
    = [ lit "Generating STL for: Ann... ";
        (10003 :: lit " Success") ++ [chr_newline];
        (10007 :: lit " Error: [Errno 2] No such file or directory: 'out/temp_Ann.scad'")
        ++ [chr_newline] ].
Proof.
  cbv zeta. split; [vm_compute; reflexivity|]. split; [vm_compute; reflexivity|].
  split; [|split; [vm_compute; reflexivity | split; vm_compute; reflexivity]].
  eexists. split; [vm_compute; reflexivity | vm_compute; reflexivity].
Qed.

(** C6 (isolation of records).  The first half of the claim holds: a
    timeout is caught, reported as a timeout and counted as a failure, and
    the loop goes on ([generate_stl_timeout], [main_loop_continues]).  The
    second half does not: the script is written before the [try] begins, so
    a record whose script cannot be created ends the whole run.  Here the
    first name is 300 letters long, the file name exceeds what the file
    system takes, [OSError] leaves [main], and "Bob" is never attempted. *)
Theorem C6_unwritable_script_ends_run :
  let rows := [ {[ lit "name" := Some (replicate 300 97) ]};
                row_of [("name", "Bob")] ] in
  let sys := toy_system (λ _, Renders) rows in
  let run := main (rt := ascii_runtime) (sys := sys)
               {| files := {[ CSV_FILE := [] ]}; stdout := [] |} in
  length (read_csv (rt := ascii_runtime) rows) = 2%nat
  ∧ exn_kind <$> raised run = Some OSError
  ∧ last (stdout (world_after run)) = Some (lit "[1/2] ")
  ∧ (lit "Generating STL for: Bob... " ∉ stdout (world_after run))
  ∧ files (world_after run)
      !! (output_stl_path (rt := ascii_runtime) OUTPUT_DIR (lit "Bob")) = None.
Proof.
  cbv zeta. repeat split; try (vm_compute; reflexivity).
  apply (bool_decide_unpack _). vm_compute. exact I.
Qed.

(** A timeout does not stop the run: the first record runs into the
    timeout and is counted as failed, the second is rendered. *)
Example timeout_then_success :
  let sys := toy_system (λ out, if bool_decide (out = lit "generated_nametags/Jane_Doe.stl")
                                then Hangs else Renders) scenario_rows in
  let run := main (rt := ascii_runtime) (sys := sys)
               {| files := {[ CSV_FILE := [] ]}; stdout := [] |} in
  returned run = Some ()
  ∧ ((10007 :: lit " Timeout") ++ [chr_newline] ∈ stdout (world_after run))
  ∧ (lit "Successful: 1" ++ [chr_newline] ∈ stdout (world_after run))
  ∧ (lit "Failed: 1" ++ [chr_newline] ∈ stdout (world_after run))
  ∧ bool_decide (is_Some (files (world_after run) !! lit "generated_nametags/Bob.stl"))
    = true.
Proof.
  cbv zeta. split; [vm_compute; reflexivity|].
  split; [apply (bool_decide_unpack _); vm_compute; exact I|].
  split; [apply (bool_decide_unpack _); vm_compute; exact I|].
  split; [apply (bool_decide_unpack _); vm_compute; exact I|].
  vm_compute; reflexivity.
Qed.

(** C7 (the locator).  [find_openscad] returns a candidate exactly when the
    candidates before it were passed over, each because its version query
    ended with a non-zero code or raised one of the three swallowed
    exceptions, and its own query ended with code zero; it returns [None]
    exactly when every candidate of the list was passed over in this way;
    and a candidate that is passed over leaves the search to continue with
    the candidates after it. *)
Theorem C7_find_openscad {sys : System} (w : World) :
  (∀ p w',
     find_openscad w = Return (Some p) w' ↔
     ∃ before after w1 err fs,
       possible_paths = before ++ p :: after
       ∧ passes_over before w w1
       ∧ version_query p (files w1) = (Completed 0 err, fs)
       ∧ w' = confirmed_world p fs w1)
  ∧ (∀ w', find_openscad w = Return None w' ↔ passes_over possible_paths w w')
  ∧ (∀ path paths w0 e fs,
       version_query path (files w0) = (RunRaised e, fs) →
       exn_kind e ∈ [FileNotFoundError; TimeoutExpired; PermissionError] →
       find_openscad_from (path :: paths) w0
       = find_openscad_from paths (set_files fs w0)).
Proof.
  split; [|split].
  - intros p w'. apply find_openscad_from_some.
  - intros w'. apply find_openscad_from_none.
  - intros path paths w0 e fs Hq He.
    apply (find_openscad_from_declined _ _ _ _ _ Hq).
    cbn. unfold swallowed. by apply bool_decide_eq_true_2.
Qed.

(** The locator on the small system: "openscad" is not found,
    "/usr/bin/openscad" may not be executed, and the third candidate
    answers. *)
Example find_openscad_third_candidate :
  returned (find_openscad (sys := toy_system (λ _, Renders) []) empty_world)
  = Some (Some (lit "/usr/local/bin/openscad")).
Proof. vm_compute; reflexivity. Qed.

(** C8 (colliding names).  "A/B" and "A B" both sanitise to "A_B", so the
    two requests have the same script path and the same model path.  With a
    tool that writes the model of the script it is given, and a system that
    lets the script be opened, written and removed, processing the two in
    one run
    counts two successes and changes the files at one path only: the model
    path, which ends up holding the model of the second request's script. *)
Theorem C8_collision {rt : Runtime} {sys : System} (tool : str)
  (model : str → str) (params1 params2 : gmap str pyval) (text1 text2 : str)
  (w : World) :
  let temp_scad := lit "generated_nametags/temp_A_B.scad" in
  let output_stl := lit "generated_nametags/A_B.stl" in
  scad_content (lit "A/B") params1 = inr text1 →
  scad_content (lit "A B") params2 = inr text2 →
  (∀ fs, open_error temp_scad fs = None) →
  (∀ fs text, write_error temp_scad text fs = None) →
  (∀ fs, unlink_error temp_scad fs = None) →
  (∀ fs text, fs !! temp_scad = Some text →
     spawn [tool; lit "-o"; output_stl; temp_scad] 60 fs
     = (Completed 0 [], <[output_stl := model text]> fs)) →
  sanitize_filename (lit "A/B") = lit "A_B"
  ∧ sanitize_filename (lit "A B") = lit "A_B"
  ∧ output_stl_path OUTPUT_DIR (lit "A/B") = output_stl
  ∧ output_stl_path OUTPUT_DIR (lit "A B") = output_stl
  ∧ ∃ w',
      main_loop tool 2 1
        [ {| nd_name := lit "A/B"; nd_params := params1 |};
          {| nd_name := lit "A B"; nd_params := params2 |} ] 0 0 w
      = Return (2%nat, 0%nat) w'
      ∧ files w' = <[output_stl := model text2]> (delete temp_scad (files w)).
Proof.
  intros temp_scad output_stl Htext1 Htext2 Hopen Hwrite Hunlink Htool.
  split; [reflexivity|]. split; [reflexivity|].
  split; [reflexivity|]. split; [reflexivity|].
  assert (Hne : temp_scad ≠ output_stl).
  { apply (bool_decide_unpack _). vm_compute. exact I. }
  assert (Hgen : ∀ name params text w0,
            temp_scad_path OUTPUT_DIR name = temp_scad →
            output_stl_path OUTPUT_DIR name = output_stl →
            scad_content name params = inr text →
            ∃ w1, generate_stl tool name params OUTPUT_DIR w0 = Return true w1
                  ∧ files w1 = delete temp_scad
                                 (<[output_stl := model text]>
                                    (<[temp_scad := text]> (files w0)))).
  { intros name params text w0 Htemp Hout Htext.
    edestruct (generate_stl_classifies tool name params OUTPUT_DIR w0 text)
      as (b & w1 & Hrun & Hb & Hfiles); [done| | | |].
    - rewrite Htemp. apply Hopen.
    - rewrite Htemp. apply Hwrite.
    - rewrite Htemp, Hout. apply Htool. apply lookup_insert_eq.
    - assert (b = true) as ->.
      { apply Hb. rewrite Htemp, Hout. split; [by eexists|].
        split; [by rewrite lookup_insert_eq|].
        split; [|apply Hunlink].
        rewrite lookup_insert_ne by done. by rewrite lookup_insert_eq. }
      exists w1. split; [done|]. by rewrite Hfiles, Htemp. }
  rewrite main_loop_step.
  edestruct (Hgen (lit "A/B") params1 text1) as (w1 & -> & Hfiles1);
    [reflexivity | reflexivity | done |].
  rewrite main_loop_step.
  edestruct (Hgen (lit "A B") params2 text2) as (w2 & -> & Hfiles2);
    [reflexivity | reflexivity | done |].
  exists w2. split; [done|]. rewrite Hfiles2. cbn [files stdout].
  rewrite Hfiles1. cbn [files stdout].
  apply map_eq. intros path.
  destruct (decide (path = output_stl)) as [->|Hout];
    [|destruct (decide (path = temp_scad)) as [->|Htemp]].
  - rewrite lookup_delete_ne, !lookup_insert_eq by done. done.
  - rewrite lookup_delete_eq, lookup_insert_ne, lookup_delete_eq by done. done.
  - rewrite lookup_delete_ne, !(lookup_insert_ne _ output_stl) by done.
    rewrite lookup_insert_ne, !lookup_delete_ne by done.
    rewrite lookup_insert_ne, lookup_insert_ne by done. done.
Qed.

Lemma C8_collision_witness :
  ∃ w' text2,
    main_loop (rt := ascii_runtime) (sys := toy_system (λ _, Renders) [])
      (lit "openscad") 2 1
      [ {| nd_name := lit "A/B"; nd_params := DEFAULT_PARAMS |};
        {| nd_name := lit "A B"; nd_params := DEFAULT_PARAMS |} ] 0 0 empty_world
    = Return (2%nat, 0%nat) w'
    ∧ scad_content (rt := ascii_runtime) (lit "A B") DEFAULT_PARAMS = inr text2
    ∧ files w' = {[ lit "generated_nametags/A_B.stl" := toy_model text2 ]}.
Proof.
  edestruct (C8_collision (rt := ascii_runtime)
               (sys := toy_system (λ _, Renders) [])
               (lit "openscad") toy_model DEFAULT_PARAMS DEFAULT_PARAMS)
    as (_ & _ & _ & _ & w' & Hloop & Hfiles).
  - vm_compute. reflexivity.
  - vm_compute. reflexivity.
  - intros fs. reflexivity.
  - intros fs text. reflexivity.
  - intros fs. reflexivity.
  - intros fs text Htext.
    cbv beta iota delta [spawn toy_system toy_spawn]. by rewrite Htext.
  - eexists w', _. split; [exact Hloop|]. split; [reflexivity|].
    rewrite Hfiles. cbn [files empty_world]. by rewrite delete_empty.
Defined.

(** C9 (rendering is a function of name and parameters).  Whenever
    [create_temp_scad] writes a script for a name and a parameter set, the
    text in the file is [scad_content] of the two, whatever the path, the
    world before and the system: two renderings of the same pair have the
    same content. *)
Theorem C9_rendering_deterministic {rt : Runtime} (sys1 sys2 : System)
  (name : str) (params : gmap str pyval) (temp1 temp2 : str)
  (w1 w2 w1' w2' : World) :
  create_temp_scad (sys := sys1) name params temp1 w1 = Return () w1' →
  create_temp_scad (sys := sys2) name params temp2 w2 = Return () w2' →
  ∃ text,
    scad_content name params = inr text
    ∧ files w1' !! temp1 = Some text
    ∧ files w2' !! temp2 = Some text.
Proof.
  intros (text1 & Htext1 & Hfile1)%create_temp_scad_inv
         (text2 & Htext2 & Hfile2)%create_temp_scad_inv.
  exists text1. rewrite Htext1 in Htext2. injection Htext2 as <-. done.
Qed.

(** Two renderings of one request, into different paths of different
    worlds on different systems. *)
Lemma C9_rendering_deterministic_witness :
  let name := lit "Jane O'Brien" in
  let params := resolved_params (rt := ascii_runtime)
                  (row_of [("name", "Jane O'Brien"); ("text_size", "12")]) in
  let run1 := create_temp_scad (rt := ascii_runtime)
                (sys := toy_system (λ _, Renders) [])
                name params (lit "a/temp.scad") empty_world in
  let run2 := create_temp_scad (rt := ascii_runtime)
                (sys := toy_system (λ _, Hangs) scenario_rows)
                name params (lit "b.scad")
                {| files := {[ lit "b.scad" := lit "old" ]}; stdout := [lit "x"] |} in
  ∃ text,
    scad_content (rt := ascii_runtime) name params = inr text
    ∧ files (world_after run1) !! lit "a/temp.scad" = Some text
    ∧ files (world_after run2) !! lit "b.scad" = Some text.
Proof.
  cbv zeta.
  apply (C9_rendering_deterministic (rt := ascii_runtime)
           (toy_system (λ _, Renders) []) (toy_system (λ _, Hangs) scenario_rows)
           _ _ _ _ empty_world
           {| files := {[ lit "b.scad" := lit "old" ]}; stdout := [lit "x"] |}).
  - apply returned_Return. vm_compute; reflexivity.
  - apply returned_Return. vm_compute; reflexivity.
Defined.

(** C10 (the two counters).  When the loop of [main] has gone through the
    requests of the reader, the two counters add up to the number of
    requests, and the summary prints these two numbers and no other:
    between the banner lines it reports the successes, the failures and the
    output directory. *)
Theorem C10_counters {rt : Runtime} {sys : System} (tool : str)
  (rows : list Row) (w w' : World) (successful failed : nat) :
  main_loop tool (length (read_csv rows)) 1 (read_csv rows) 0 0 w
  = Return (successful, failed) w' →
  (successful + failed = length (read_csv rows))%nat
  ∧ ∃ w'',
      main_summary successful failed w' = Return () w''
      ∧ files w'' = files w'
      ∧ stdout w''
        = stdout w'
          ++ [ [chr_newline];
               banner ++ [chr_newline];
               lit "Generation Complete!" ++ [chr_newline];
               (lit "Successful: " ++ str_of_nat successful) ++ [chr_newline];
               (lit "Failed: " ++ str_of_nat failed) ++ [chr_newline];
               (lit "Output location: " ++ abspath OUTPUT_DIR) ++ [chr_newline];
               banner ++ [chr_newline] ].
Proof.
  intros Hloop. split.
  - apply main_loop_counts in Hloop. lia.
  - eexists. split; [reflexivity|]. split; [reflexivity|].
    cbn [stdout]. by rewrite <- !app_assoc.
Qed.

Lemma C10_counters_witness :
  let run := main_loop (rt := ascii_runtime)
      (sys := toy_system (λ out, if bool_decide (out = lit "generated_nametags/Bob.stl")
                                 then Hangs else Renders) [])
      (lit "openscad") (length (read_csv (rt := ascii_runtime) scenario_rows)) 1
      (read_csv (rt := ascii_runtime) scenario_rows) 0 0 empty_world in
  returned run = Some (1%nat, 1%nat)
  ∧ (1 + 1 = length (read_csv (rt := ascii_runtime) scenario_rows))%nat.
Proof.
  cbv zeta. split; [vm_compute; reflexivity|].
  eapply (C10_counters (rt := ascii_runtime)
            (sys := toy_system (λ out, if bool_decide (out = lit "generated_nametags/Bob.stl")
                                       then Hangs else Renders) [])
            (lit "openscad") scenario_rows empty_world).
  apply returned_Return. vm_compute; reflexivity.
Defined.

(** The end-to-end scenario of the specification: of the three records,
    "Jane Doe", an empty name, and "Bob" with the text size "abc", two are
    processed, and Bob keeps the default text size. *)
Example end_to_end_scenario :
  let run := main (rt := ascii_runtime)
               (sys := toy_system (λ _, Renders) scenario_rows)
               {| files := {[ CSV_FILE := [] ]}; stdout := [] |} in
  returned run = Some ()
  ∧ nd_name <$> read_csv (rt := ascii_runtime) scenario_rows
    = [lit "Jane Doe"; lit "Bob"]
  ∧ (read_csv (rt := ascii_runtime) scenario_rows !! 1%nat)
      ≫= (λ d, nd_params d !! lit "text_size") = Some (PyInt 8)
  ∧ (read_csv (rt := ascii_runtime) scenario_rows !! 1%nat)
      ≫= (λ d, nd_params d !! lit "ring_width") = Some (PyFloat 12)
  ∧ (lit "Successful: 2" ++ [chr_newline] ∈ stdout (world_after run))
  ∧ (lit "Failed: 0" ++ [chr_newline] ∈ stdout (world_after run)).
Proof.
  cbv zeta. repeat split; try (vm_compute; reflexivity).
  - apply (bool_decide_unpack _). vm_compute. exact I.
  - apply (bool_decide_unpack _). vm_compute. exact I.
Qed.

(** * Further properties *)

(** ** Text *)

Section FurtherTextFacts.
Context {rt : Runtime}.

Lemma lstrip_app_nonspace (l : str) (c : N) :
  isspace c = false → lstrip (l ++ [c]) = lstrip l ++ [c].
Proof.
  intros Hc. induction l as [|x l IH]; cbn [lstrip app].
  - by rewrite Hc.
  - by destruct (isspace x).
Qed.

Lemma rstrip_cons_nonspace (c : N) (s : str) :
  isspace c = false → rstrip (c :: s) = c :: rstrip s.
Proof.
  intros Hc. unfold rstrip. rewrite reverse_cons, lstrip_app_nonspace by done.
  by rewrite reverse_app.
Qed.

Lemma lstrip_head (s : str) (c : N) :
  head (lstrip s) = Some c → isspace c = false.
Proof.
  induction s as [|x s IH]; cbn [lstrip]; [done|].
  destruct (isspace x) eqn:Hx; [done|]. by intros [= <-].
Qed.

Lemma lstrip_nonspace_head (c : N) (s : str) :
  isspace c = false → lstrip (c :: s) = c :: s.
Proof. intros Hc. cbn [lstrip]. by rewrite Hc. Qed.

Lemma lstrip_idem (s : str) : lstrip (lstrip s) = lstrip s.
Proof.
  destruct (lstrip s) as [|c t] eqn:Hs; [done|].
  apply lstrip_nonspace_head, (lstrip_head s). by rewrite Hs.
Qed.

Lemma rstrip_idem (s : str) : rstrip (rstrip s) = rstrip s.
Proof. unfold rstrip. by rewrite reverse_involutive, lstrip_idem. Qed.

Lemma strip_idem (s : str) : strip (strip s) = strip s.
Proof.
  unfold strip. destruct (lstrip s) as [|c t] eqn:Hs; [done|].
  assert (Hc : isspace c = false) by (apply (lstrip_head s); by rewrite Hs).
  rewrite (rstrip_cons_nonspace c t Hc), (lstrip_nonspace_head c _ Hc).
  by rewrite (rstrip_cons_nonspace c _ Hc), rstrip_idem.
Qed.

(** Stripping leaves alone a text whose characters are no white space. *)
Lemma lstrip_no_space (s : str) :
  Forall (λ c, isspace c = false) s → lstrip s = s.
Proof. destruct 1 as [|c s Hc _]; [done | by apply lstrip_nonspace_head]. Qed.

Lemma strip_no_space (s : str) :
  Forall (λ c, isspace c = false) s → strip s = s.
Proof.
  intros Hs. unfold strip, rstrip. rewrite (lstrip_no_space s Hs).
  rewrite lstrip_no_space by (by apply Forall_reverse).
  apply reverse_involutive.
Qed.

Lemma sanitize_filename_Forall (name : str) :
  Forall safe_char (sanitize_filename name).
Proof.
  apply Forall_forall. intros c Hc. by apply sanitize_filename_chars in Hc.
Qed.
End FurtherTextFacts.

(** X1.  A sanitised name holds only letters, digits, hyphens and
    underscores: no space, no path separator of either kind, no dot, no
    colon and no quote, whatever the display name was. *)
Theorem X1_sanitize_filename_safe {rt : Runtime} (name : str) :
  Forall safe_char (sanitize_filename name)
  ∧ Forall (λ c, c ∉ sanitize_filename name)
      [chr_space; 47; 92; 46; 58; chr_quote; 39; chr_newline].
Proof.
  pose proof (sanitize_filename_Forall name) as Hsafe. split; [done|].
  rewrite Forall_forall in Hsafe.
  repeat apply Forall_cons_2; try apply Forall_nil_2;
    intros [Ha|[Hh|Hu]]%Hsafe; done.
Qed.

(** X2.  Sanitising is idempotent on every runtime in which no
    alphanumeric code point counts as white space (as in Unicode): a
    sanitised name is its own sanitisation. *)
Theorem X2_sanitize_filename_idempotent {rt : Runtime} (name : str) :
  (∀ c, 128 ≤ c → unicode_isalnum c = true → unicode_isspace c = false) →
  sanitize_filename (sanitize_filename name) = sanitize_filename name.
Proof.
  intros Hrt. pose proof (sanitize_filename_Forall name) as Hsafe.
  generalize dependent (sanitize_filename name). intros s Hsafe.
  rewrite sanitize_filename_refines. unfold spec_sanitize.
  assert (Hsub : spec_substitute s = s).
  { unfold spec_substitute. induction Hsafe as [|c s Hc _ IH]; [done|].
    rewrite fmap_cons, IH. f_equal.
    unfold keeps. destruct Hc as [->|[->| ->]]; [done| |].
    - by destruct (isalnum chr_hyphen).
    - by destruct (isalnum chr_underscore). }
  rewrite Hsub.
  assert (Hnospace : Forall (λ c, isspace c = false) s).
  { eapply Forall_impl; [exact Hsafe|]. intros c [Ha|[->| ->]]; [|done|done].
    unfold isalnum, isspace in *. destruct (c <? 128) eqn:Hlt.
    - destruct (N.leb_spec 9 c), (N.leb_spec c 13), (N.leb_spec 28 c),
        (N.leb_spec c 32); try done;
        destruct (N.leb_spec 48 c), (N.leb_spec c 57), (N.leb_spec 65 c),
          (N.leb_spec c 90), (N.leb_spec 97 c), (N.leb_spec c 122);
        try done; lia.
    - apply Hrt; [|done]. apply N.ltb_ge in Hlt. lia. }
  assert (Hsp : spec_spaces_to_underscores s = s).
  { unfold spec_spaces_to_underscores. clear Hsub Hnospace.
    induction Hsafe as [|c s Hc _ IH]; [done|].
    rewrite fmap_cons, IH. f_equal.
    case_bool_decide as Hsp; [|done]. subst c.
    destruct Hc as [Ha|[?|?]]; done. }
  change (spec_trim s) with (strip s).
  by rewrite (strip_no_space s Hnospace).
Qed.

Lemma X2_sanitize_filename_idempotent_witness :
  sanitize_filename (rt := ascii_runtime)
    (sanitize_filename (rt := ascii_runtime) (lit "  Jane O'Brien, jr. "))
  = sanitize_filename (rt := ascii_runtime) (lit "  Jane O'Brien, jr. ").
Proof.
  apply (X2_sanitize_filename_idempotent (rt := ascii_runtime)).
  intros c _ Ha. discriminate Ha.
Defined.

(** X3.  A name made only of characters that sanitising does not keep
    (punctuation, say) becomes as many underscores. *)
Theorem X3_sanitize_filename_punctuation {rt : Runtime} (name : str) :
  Forall (λ c, keeps c = false) name →
  sanitize_filename name = replicate (length name) chr_underscore.
Proof.
  intros Hname. rewrite sanitize_filename_refines. unfold spec_sanitize.
  assert (Hsub : spec_substitute name = replicate (length name) chr_underscore).
  { unfold spec_substitute. induction Hname as [|c s Hc _ IH]; [done|].
    rewrite fmap_cons, Hc, IH. done. }
  rewrite Hsub.
  assert (Hns : Forall (λ c, isspace c = false)
                  (replicate (length name) chr_underscore)).
  { apply Forall_replicate. reflexivity. }
  change (spec_trim ?s) with (strip s). rewrite (strip_no_space _ Hns).
  unfold spec_spaces_to_underscores. by rewrite fmap_replicate.
Qed.

Lemma X3_sanitize_filename_punctuation_witness :
  sanitize_filename (rt := ascii_runtime) (lit "?!/*.")
  = replicate 5 chr_underscore.
Proof.
  apply (X3_sanitize_filename_punctuation (rt := ascii_runtime) (lit "?!/*.")).
  repeat constructor.
Defined.

(** X4.  Sanitising never lengthens a name. *)
Theorem X4_sanitize_filename_no_longer {rt : Runtime} (name : str) :
  (length (sanitize_filename name) ≤ length name)%nat.
Proof.
  rewrite sanitize_filename_refines. unfold spec_sanitize.
  unfold spec_spaces_to_underscores, spec_trim.
  rewrite length_fmap, length_reverse.
  assert (Hle : ∀ s, (length (lstrip s) ≤ length s)%nat).
  { induction s as [|c s IH]; cbn [lstrip length]; [done|].
    destruct (isspace c); cbn [length]; lia. }
  etrans; [apply Hle|]. rewrite length_reverse.
  etrans; [apply Hle|]. unfold spec_substitute. by rewrite length_fmap.
Qed.

(** ** The record reader *)

Lemma read_csv_member {rt : Runtime} (rows : list Row) (d : NameData) :
  d ∈ read_csv rows ↔
  ∃ row name, row ∈ rows ∧ display_name row = Some name
              ∧ d = {| nd_name := name; nd_params := resolved_params row |}.
Proof.
  rewrite read_csv_requests, list_elem_of_omap. unfold request_of. split.
  - intros (row & Hrow & Hd).
    destruct (display_name row) as [name|] eqn:Hname; [|done].
    injection Hd as <-. by exists row, name.
  - intros (row & name & Hrow & Hname & ->). exists row.
    by rewrite Hname.
Qed.

(** X5.  Every name the reader emits is non-empty and trimmed: stripping it
    again changes nothing. *)
Theorem X5_read_csv_names_trimmed {rt : Runtime} (rows : list Row) (d : NameData) :
  d ∈ read_csv rows →
  nd_name d ≠ [] ∧ strip (nd_name d) = nd_name d.
Proof.
  intros (row & name & _ & Hname & ->)%read_csv_member. cbn [nd_name].
  unfold display_name in Hname.
  destruct (row_get row (lit "name")) as [raw|]; [|done].
  case_decide as Hraw; [done|].
  injection Hname as <-. split; [done | apply strip_idem].
Qed.

Lemma X5_read_csv_names_trimmed_witness :
  let d := {| nd_name := lit "Jane Doe";
              nd_params := resolved_params (rt := ascii_runtime)
                             (row_of [("name", "  Jane Doe ")]) |} in
  nd_name d ≠ [] ∧ strip (rt := ascii_runtime) (nd_name d) = nd_name d.
Proof.
  apply (X5_read_csv_names_trimmed (rt := ascii_runtime)
           [row_of [("name", " ")]; row_of [("name", "  Jane Doe ")]]).
  vm_compute. left.
Defined.

(** X6.  The reader handles each row on its own: reading two lists of rows
    one after the other gives the requests of the first followed by the
    requests of the second, so no row changes what another row yields. *)
Theorem X6_read_csv_app {rt : Runtime} (rows1 rows2 : list Row) :
  read_csv (rows1 ++ rows2) = read_csv rows1 ++ read_csv rows2.
Proof. rewrite !read_csv_requests. apply omap_app. Qed.

Lemma override_params_same_cells {rt : Runtime} (row row' : Row) keys params :
  (∀ key, key ∈ keys → row_get row key = row_get row' key) →
  foldl (override_param row) params keys = foldl (override_param row') params keys.
Proof.
  revert params. induction keys as [|key keys IH]; intros params Hsame; [done|].
  cbn [foldl]. unfold override_param at 2 4.
  rewrite (Hsame key) by (by left). apply IH.
  intros k Hk. apply Hsame. by right.
Qed.

(** X7.  The reader looks at the name and at the nine parameter cells of a
    row and at nothing else: rows that agree on these ten cells, whatever
    other columns they carry, yield the same requests. *)
Theorem X7_read_csv_other_columns {rt : Runtime} (rows rows' : list Row) :
  Forall2 same_cells rows rows' →
  read_csv rows = read_csv rows'.
Proof.
  rewrite !read_csv_requests. induction 1 as [|row row' rows rows' Hsame _ IH];
    [done|].
  change (row :: rows) with ([row] ++ rows).
  change (row' :: rows') with ([row'] ++ rows').
  rewrite !omap_app, IH. f_equal. cbn [omap list_omap].
  assert (Hreq : request_of row = request_of row'); [|by rewrite Hreq].
  unfold request_of, display_name, resolved_params.
  rewrite (Hsame (lit "name")) by (by left).
  rewrite (override_params_same_cells row row'); [done|].
  intros key Hkey. apply Hsame. by right.
Qed.

Lemma X7_read_csv_other_columns_witness :
  read_csv (rt := ascii_runtime)
    [row_of [("name", "Bob"); ("text_size", "12"); ("email", "bob@example.org")]]
  = read_csv (rt := ascii_runtime)
      [row_of [("text_size", "12"); ("name", "Bob"); ("colour", "red")]].
Proof.
  apply (X7_read_csv_other_columns (rt := ascii_runtime)).
  constructor; [|constructor].
  unfold same_cells. apply (proj1 (Forall_forall _ _)).
  vm_compute. repeat constructor.
Defined.

(** ** Rendering *)

Lemma render_pieces_app {rt : Runtime} name params (ps qs : list piece) :
  render_pieces name params (ps ++ qs)
  = match render_pieces name params ps with
    | inl key => inl key
    | inr text =>
        match render_pieces name params qs with
        | inl key => inl key
        | inr rest => inr (text ++ rest)
        end
    end.
Proof.
  induction ps as [|p ps IH]; cbn [render_pieces app].
  - by destruct (render_pieces name params qs).
  - destruct (render_piece name params p) as [key|text]; [done|].
    rewrite IH. destruct (render_pieces name params ps) as [key|t1]; [done|].
    destruct (render_pieces name params qs) as [key|t2]; [done|].
    by rewrite app_assoc.
Qed.

Lemma render_pieces_keys {rt : Runtime} name params ps text :
  render_pieces name params ps = inr text →
  ∀ key, Param key ∈ ps → is_Some (params !! lit key).
Proof.
  revert text. induction ps as [|p ps IH]; intros text Hps key Hin.
  - by apply elem_of_nil in Hin.
  - cbn [render_pieces] in Hps.
    destruct (render_piece name params p) as [|t1] eqn:Hp; [done|].
    destruct (render_pieces name params ps) as [|t2]; [done|].
    apply elem_of_cons in Hin as [<-|Hin]; [|by eapply IH].
    cbn [render_piece] in Hp. by destruct (params !! lit key).
Qed.

Lemma default_keys_in_template (key : str) :
  key ∈ DEFAULT_PARAMS_keys → key ∈ template_keys.
Proof.
  revert key. apply (proj1 (Forall_forall _ _)).
  apply (bool_decide_unpack _). vm_compute. exact I.
Qed.

(** X8.  A script can be rendered exactly for the parameter sets that hold
    all nine keys: one missing key makes the rendering fail, and keys
    beyond the nine are of no account. *)
Theorem X8_scad_content_defined {rt : Runtime} (name : str)
  (params : gmap str pyval) :
  (∃ text, scad_content name params = inr text)
  ↔ (∀ key, key ∈ DEFAULT_PARAMS_keys → is_Some (params !! key)).
Proof.
  split; [|apply scad_content_defined].
  intros [text Htext] key Hkey.
  apply default_keys_in_template, list_elem_of_omap in Hkey as (p & Hin & Hp).
  destruct p as [| | |k]; try done. injection Hp as <-.
  by apply (render_pieces_keys name params template_pieces text).
Qed.

(** X9.  Every request the reader emits can be rendered: the lookup of a
    parameter never fails in [create_temp_scad] for the reader's output. *)
Theorem X9_read_csv_renders {rt : Runtime} (rows : list Row) (d : NameData) :
  d ∈ read_csv rows →
  ∃ text, scad_content (nd_name d) (nd_params d) = inr text.
Proof.
  intros (row & name & _ & _ & ->)%read_csv_member. cbn [nd_name nd_params].
  apply scad_content_defined. intros key Hkey.
  destruct (default_present key Hkey) as [default Hdefault].
  rewrite (resolved_params_lookup row key default) by done. by eexists.
Qed.

Lemma X9_read_csv_renders_witness :
  let d := {| nd_name := lit "Bob";
              nd_params := resolved_params (rt := ascii_runtime)
                (row_of [("name", "Bob"); ("text_size", "abc"); ("ring_width", " 12 ")]) |} in
  ∃ text, scad_content (rt := ascii_runtime) (nd_name d) (nd_params d) = inr text.
Proof.
  apply (X9_read_csv_renders (rt := ascii_runtime) scenario_rows).
  do 1 right. left.
Defined.

(** X10.  Every script begins with the same four lines, into which the
    display name is copied twice as it is, the second time between double
    quotes: nothing in the name is escaped. *)
Theorem X10_scad_content_header {rt : Runtime} (name : str)
  (params : gmap str pyval) (text : str) :
  scad_content name params = inr text →
  ∃ rest, text = scad_header name ++ rest.
Proof.
  unfold scad_content.
  rewrite <- (take_drop 12 template_pieces), render_pieces_app.
  assert (Hhead : render_pieces name params (take 12 template_pieces)
                  = inr (scad_header name)).
  { vm_compute. reflexivity. }
  rewrite Hhead.
  destruct (render_pieces name params (drop 12 template_pieces)) as [|rest];
    [done|].
  intros [= <-]. by exists rest.
Qed.

Lemma X10_scad_content_header_witness :
  ∃ rest,
    rendered (scad_content (rt := ascii_runtime) (lit "5" ++ [chr_quote] ++ lit " tall") DEFAULT_PARAMS)
    = scad_header (lit "5" ++ [chr_quote] ++ lit " tall") ++ rest.
Proof.
  apply (X10_scad_content_header (rt := ascii_runtime) (lit "5" ++ [chr_quote] ++ lit " tall")
           DEFAULT_PARAMS).
  vm_compute. reflexivity.
Defined.

(** ** The generator *)

(** What an exception of [generate_stl] tells (used for the loop too). *)
Lemma generate_stl_raise_inv {rt : Runtime} {sys : System}
  (tool name : str) (params : gmap str pyval) (dir : str) (w w' : World)
  (e : exn) :
  generate_stl tool name params dir w = Raise e w' →
  stdout w' = stdout w
  ∧ ((∃ key, scad_content name params = inl key ∧ exn_kind e = KeyError
             ∧ files w' = files w)
     ∨ (∃ text, scad_content name params = inr text
                ∧ open_error (temp_scad_path dir name) (files w) = Some e
                ∧ files w' = files w)
     ∨ (∃ text partial,
          scad_content name params = inr text
          ∧ open_error (temp_scad_path dir name) (files w) = None
          ∧ write_error (temp_scad_path dir name) text (files w) = Some (e, partial)
          ∧ files w' = <[temp_scad_path dir name := partial]> (files w))).
Proof.
  destruct (scad_content name params) as [key|text] eqn:Htext.
  - unfold generate_stl, create_temp_scad. rewrite Htext. unfold_M.
    intros [= <- <-]. split; [done|]. left. by exists key.
  - destruct (open_error (temp_scad_path dir name) (files w)) as [e'|] eqn:Hopen.
    + rewrite (generate_stl_unwritable tool name params dir w text e') by done.
      intros [= <- <-]. split; [done|]. right; left. by exists text.
    + destruct (write_error (temp_scad_path dir name) text (files w))
        as [[e' partial]|] eqn:Hwrite.
      * rewrite (generate_stl_write_breaks tool name params dir w text e' partial)
          by done.
        intros [= <- <-]. split; [done|]. right; right. by exists text, partial.
      * destruct (spawn [tool; lit "-o"; output_stl_path dir name;
                         temp_scad_path dir name] 60
                    (<[temp_scad_path dir name := text]> (files w)))
          as [res fs] eqn:Hrun.
        destruct (generate_stl_classifies tool name params dir w text res fs
                    Htext Hopen Hwrite Hrun) as (b & w1 & -> & _). done.
Qed.

(** X11.  An exception leaves [generate_stl] only from the writing of the
    script, before anything is printed or started.  It is the [KeyError] of
    a parameter set that lacks a key, or the exception the system raises
    when the script file cannot be opened, and in both cases no file has
    changed; or it is the exception that breaks off the writing of the
    opened file, and then the script file is left with what was written
    and no other file has changed. *)
Theorem X11_generate_stl_raises {rt : Runtime} {sys : System}
  (tool name : str) (params : gmap str pyval) (dir : str) (w w' : World)
  (e : exn) :
  generate_stl tool name params dir w = Raise e w' →
  stdout w' = stdout w
  ∧ ((∃ key, scad_content name params = inl key ∧ exn_kind e = KeyError
             ∧ files w' = files w)
     ∨ (∃ text, scad_content name params = inr text
                ∧ open_error (temp_scad_path dir name) (files w) = Some e
                ∧ files w' = files w)
     ∨ (∃ text partial,
          scad_content name params = inr text
          ∧ open_error (temp_scad_path dir name) (files w) = None
          ∧ write_error (temp_scad_path dir name) text (files w) = Some (e, partial)
          ∧ files w' = <[temp_scad_path dir name := partial]> (files w))).
Proof. apply generate_stl_raise_inv. Qed.

(** On a full disk the script is opened and the writing breaks off after
    the first ten characters. *)
Lemma X11_generate_stl_raises_witness :
  let run := generate_stl (rt := ascii_runtime) (sys := full_disk_system)
               (lit "openscad") (lit "Ann") DEFAULT_PARAMS (lit "out") empty_world in
  stdout (world_after run) = stdout empty_world
  ∧ files (world_after run) = {[ lit "out/temp_Ann.scad" := lit "// Auto-ge" ]}.
Proof.
  cbv zeta.
  destruct (X11_generate_stl_raises (rt := ascii_runtime) (sys := full_disk_system)
              (lit "openscad") (lit "Ann") DEFAULT_PARAMS (lit "out") empty_world
              (world_after (generate_stl (rt := ascii_runtime)
                 (sys := full_disk_system) (lit "openscad") (lit "Ann")
                 DEFAULT_PARAMS (lit "out") empty_world))
              (Exn OSError (lit "[Errno 28] No space left on device")))
    as [Hout _].
  - vm_compute; reflexivity.
  - split; [exact Hout | vm_compute; reflexivity].
Defined.

Lemma generate_stl_never_exits {rt : Runtime} {sys : System}
  (tool name : str) (params : gmap str pyval) (dir : str) (w w' : World)
  (code : Z) :
  generate_stl tool name params dir w ≠ Exit code w'.
Proof.
  destruct (scad_content name params) as [key|text] eqn:Htext.
  - unfold generate_stl, create_temp_scad. rewrite Htext. by unfold_M.
  - destruct (open_error (temp_scad_path dir name) (files w)) as [e'|] eqn:Hopen.
    + by rewrite (generate_stl_unwritable tool name params dir w text e').
    + destruct (write_error (temp_scad_path dir name) text (files w))
        as [[e' partial]|] eqn:Hwrite.
      * by rewrite (generate_stl_write_breaks tool name params dir w text e' partial).
      * destruct (spawn [tool; lit "-o"; output_stl_path dir name;
                         temp_scad_path dir name] 60
                    (<[temp_scad_path dir name := text]> (files w)))
          as [res fs] eqn:Hrun.
        destruct (generate_stl_classifies tool name params dir w text res fs
                    Htext Hopen Hwrite Hrun) as (b & w1 & -> & _). done.
Qed.

(** X12.  After a success the model file is there and the script is not,
    whatever the tool did besides. *)
Theorem X12_generate_stl_success {rt : Runtime} {sys : System}
  (tool name : str) (params : gmap str pyval) (dir : str) (w w' : World) :
  generate_stl tool name params dir w = Return true w' →
  is_Some (files w' !! output_stl_path dir name)
  ∧ files w' !! temp_scad_path dir name = None.
Proof.
  destruct (scad_content name params) as [key|text] eqn:Htext.
  - unfold generate_stl, create_temp_scad. rewrite Htext. by unfold_M.
  - destruct (open_error (temp_scad_path dir name) (files w)) as [e'|] eqn:Hopen.
    + by rewrite (generate_stl_unwritable tool name params dir w text e').
    + destruct (write_error (temp_scad_path dir name) text (files w))
        as [[e' partial]|] eqn:Hwrite.
      * by rewrite (generate_stl_write_breaks tool name params dir w text e' partial).
      * destruct (spawn [tool; lit "-o"; output_stl_path dir name;
                         temp_scad_path dir name] 60
                    (<[temp_scad_path dir name := text]> (files w)))
          as [res fs] eqn:Hrun.
        destruct (generate_stl_classifies tool name params dir w text res fs
                    Htext Hopen Hwrite Hrun) as (b & w1 & -> & Hb & Hfiles).
        intros [= -> ->]. destruct (proj1 Hb eq_refl) as (_ & Hout & _).
        rewrite Hfiles. split.
        -- rewrite lookup_delete_ne; [done|]. apply temp_scad_path_not_output.
        -- apply lookup_delete_eq.
Qed.

Lemma X12_generate_stl_success_witness :
  let run := generate_stl (rt := ascii_runtime)
               (sys := toy_system (λ _, Renders) [])
               (lit "openscad") (lit "Ann") DEFAULT_PARAMS (lit "out")
               {| files := {[ lit "out/temp_Ann.scad" := lit "stale" ]};
                  stdout := [] |} in
  is_Some (files (world_after run) !! output_stl_path (rt := ascii_runtime) (lit "out") (lit "Ann"))
  ∧ files (world_after run) !! temp_scad_path (rt := ascii_runtime) (lit "out") (lit "Ann")
    = None.
Proof.
  cbv zeta.
  apply (X12_generate_stl_success (rt := ascii_runtime)
           (sys := toy_system (λ _, Renders) [])
           (lit "openscad") (lit "Ann") DEFAULT_PARAMS (lit "out")
           {| files := {[ lit "out/temp_Ann.scad" := lit "stale" ]}; stdout := [] |}).
  apply returned_Return. vm_compute; reflexivity.
Defined.

(** X13.  When the process ends with a non-zero code, or with code zero
    without having written the model, the attempt fails, the files are as
    the process left them, and after the announcement the console shows the
    failure mark followed by the captured error output, if there is any. *)
Theorem X13_generate_stl_failed {rt : Runtime} {sys : System}
  (tool name : str) (params : gmap str pyval) (dir : str) (w : World)
  (text : str) (rc : Z) (err : str) (fs : gmap str str) :
  scad_content name params = inr text →
  open_error (temp_scad_path dir name) (files w) = None →
  write_error (temp_scad_path dir name) text (files w) = None →
  spawn [tool; lit "-o"; output_stl_path dir name; temp_scad_path dir name] 60
    (<[temp_scad_path dir name := text]> (files w)) = (Completed rc err, fs) →
  rc ≠ 0%Z ∨ fs !! output_stl_path dir name = None →
  generate_stl tool name params dir w
  = Return false {| files := fs; stdout := announced name w ++ failed_lines err |}.
Proof.
  intros Htext Hopen Hwrite Hrun Hfail. unfold generate_stl.
  unfold mbind at 1, M_bind, bind at 1.
  rewrite (create_temp_scad_written _ _ _ text) by done.
  unfold_M. rewrite Hrun. cbn [fst snd files stdout].
  unfold failed_lines, announced.
  assert (Hpresent :
    (if bool_decide (rc = 0%Z)
     then bool_decide (is_Some (fs !! output_stl_path dir name))
     else false) = false).
  { destruct Hfail as [Hrc|Hout].
    - by rewrite bool_decide_eq_false_2.
    - case_bool_decide; [|done]. rewrite Hout.
      apply bool_decide_eq_false_2. by intros [? ?]. }
  assert (Hlines : ∀ out : list str,
            (out ++ [(10007 :: lit " Failed") ++ [chr_newline]])
            ++ [(lit "  Error: " ++ err) ++ [chr_newline]]
            = out ++ [(10007 :: lit " Failed") ++ [chr_newline];
                      (lit "  Error: " ++ err) ++ [chr_newline]]).
  { intros out. by rewrite <- app_assoc. }
  destruct (bool_decide (rc = 0%Z)) eqn:Hrc; cbn [files stdout] in *.
  - rewrite Hpresent. cbn [files stdout].
    destruct (bool_decide (err ≠ [])); cbn [files stdout]; by rewrite ?Hlines.
  - destruct (bool_decide (err ≠ [])); cbn [files stdout]; by rewrite ?Hlines.
Qed.

Lemma X13_generate_stl_failed_witness :
  let sys := toy_system (λ _, Fails 1 (lit "ERROR: Parser error")) [] in
  let run := generate_stl (rt := ascii_runtime) (sys := sys)
               (lit "openscad") (lit "Ann") DEFAULT_PARAMS (lit "out") empty_world in
  run = Return false
          {| files := {[ lit "out/temp_Ann.scad" :=
                           rendered (scad_content (rt := ascii_runtime)
                                       (lit "Ann") DEFAULT_PARAMS) ]};
             stdout := [ lit "Generating STL for: Ann... ";
                         (10007 :: lit " Failed") ++ [chr_newline];
                         lit "  Error: ERROR: Parser error" ++ [chr_newline] ] |}.
Proof.
  cbv zeta.
  rewrite (X13_generate_stl_failed (rt := ascii_runtime)
             (sys := toy_system (λ _, Fails 1 (lit "ERROR: Parser error")) [])
             (lit "openscad") (lit "Ann") DEFAULT_PARAMS (lit "out") empty_world
             (rendered (scad_content (rt := ascii_runtime) (lit "Ann") DEFAULT_PARAMS))
             1 (lit "ERROR: Parser error")
             (<[temp_scad_path (rt := ascii_runtime) (lit "out") (lit "Ann") :=
                  rendered (scad_content (rt := ascii_runtime) (lit "Ann") DEFAULT_PARAMS)]> ∅)).
  - f_equal.
  - vm_compute; reflexivity.
  - reflexivity.
  - reflexivity.
  - reflexivity.
  - left. lia.
Defined.

(** X14.  An exception of the process never leaves the attempt: the
    attempt fails, the files are as the process left them, and the console
    shows "Timeout" for a timeout and the text of the exception for every
    other one. *)
Theorem X14_generate_stl_process_exception {rt : Runtime} {sys : System}
  (tool name : str) (params : gmap str pyval) (dir : str) (w : World)
  (text : str) (e : exn) (fs : gmap str str) :
  scad_content name params = inr text →
  open_error (temp_scad_path dir name) (files w) = None →
  write_error (temp_scad_path dir name) text (files w) = None →
  spawn [tool; lit "-o"; output_stl_path dir name; temp_scad_path dir name] 60
    (<[temp_scad_path dir name := text]> (files w)) = (RunRaised e, fs) →
  generate_stl tool name params dir w
  = Return false
      {| files := fs;
         stdout := announced name w
                   ++ [ (if bool_decide (exn_kind e = TimeoutExpired)
                         then 10007 :: lit " Timeout"
                         else 10007 :: lit " Error: " ++ exn_text e)
                        ++ [chr_newline] ] |}.
Proof.
  intros Htext Hopen Hwrite Hrun. unfold generate_stl.
  unfold mbind at 1, M_bind, bind at 1.
  rewrite (create_temp_scad_written _ _ _ text) by done.
  unfold_M. rewrite Hrun. cbn [files stdout].
  by case_bool_decide.
Qed.

Lemma X14_generate_stl_process_exception_witness :
  let sys := toy_system (λ _, Hangs) [] in
  let run := generate_stl (rt := ascii_runtime) (sys := sys)
               (lit "openscad") (lit "Ann") DEFAULT_PARAMS (lit "out") empty_world in
  returned run = Some false
  ∧ stdout (world_after run)
    = [ lit "Generating STL for: Ann... ";
        (10007 :: lit " Timeout") ++ [chr_newline] ].
Proof.
  cbv zeta.
  rewrite (X14_generate_stl_process_exception (rt := ascii_runtime)
             (sys := toy_system (λ _, Hangs) [])
             (lit "openscad") (lit "Ann") DEFAULT_PARAMS (lit "out") empty_world
             (rendered (scad_content (rt := ascii_runtime) (lit "Ann") DEFAULT_PARAMS))
             (Exn TimeoutExpired (lit "timed out after 60 seconds"))
             (<[temp_scad_path (rt := ascii_runtime) (lit "out") (lit "Ann") :=
                  rendered (scad_content (rt := ascii_runtime) (lit "Ann") DEFAULT_PARAMS)]> ∅)).
  - split; reflexivity.
  - vm_compute; reflexivity.
  - reflexivity.
  - reflexivity.
  - reflexivity.
Defined.

(** X15.  Inside a directory whose name is not empty and does not end in a
    slash, the script and the model of a name are direct children of the
    directory: the sanitised name holds no slash, so no display name leads
    out of the output directory, and the two paths are never the same. *)
Theorem X15_paths_inside_output_dir {rt : Runtime} (dir name : str) :
  dir ≠ [] → last dir ≠ Some 47 →
  temp_scad_path dir name
  = dir ++ lit "/" ++ lit "temp_" ++ sanitize_filename name ++ lit ".scad"
  ∧ output_stl_path dir name
    = dir ++ lit "/" ++ sanitize_filename name ++ lit ".stl"
  ∧ (47 ∉ sanitize_filename name)
  ∧ temp_scad_path dir name ≠ output_stl_path dir name.
Proof.
  intros Hdir Hlast.
  assert (Hslash : 47 ∉ sanitize_filename name).
  { intros [Ha|[?|?]]%sanitize_filename_chars; done. }
  split; [|split; [|split; [done | apply temp_scad_path_not_output]]].
  - unfold temp_scad_path, os_path_join.
    rewrite bool_decide_eq_false_2 by done.
    rewrite bool_decide_eq_false_2 by (by intros [?|?]). done.
  - unfold output_stl_path, os_path_join.
    rewrite bool_decide_eq_false_2.
    + rewrite bool_decide_eq_false_2 by (by intros [?|?]). done.
    + destruct (sanitize_filename name) as [|c s] eqn:Hs; [done|].
      cbn [app head]. intros [= ->]. apply Hslash. by left.
Qed.

Lemma X15_paths_inside_output_dir_witness :
  temp_scad_path (rt := ascii_runtime) OUTPUT_DIR (lit "../../etc/passwd")
  = OUTPUT_DIR ++ lit "/" ++ lit "temp_"
    ++ sanitize_filename (rt := ascii_runtime) (lit "../../etc/passwd") ++ lit ".scad"
  ∧ output_stl_path (rt := ascii_runtime) OUTPUT_DIR (lit "../../etc/passwd")
    = OUTPUT_DIR ++ lit "/"
      ++ sanitize_filename (rt := ascii_runtime) (lit "../../etc/passwd") ++ lit ".stl"
  ∧ (47 ∉ sanitize_filename (rt := ascii_runtime) (lit "../../etc/passwd"))
  ∧ temp_scad_path (rt := ascii_runtime) OUTPUT_DIR (lit "../../etc/passwd")
    ≠ output_stl_path (rt := ascii_runtime) OUTPUT_DIR (lit "../../etc/passwd").
Proof.
  apply (X15_paths_inside_output_dir (rt := ascii_runtime) OUTPUT_DIR
           (lit "../../etc/passwd")).
  - vm_compute. discriminate.
  - vm_compute. discriminate.
Defined.

(** ** The locator *)

Lemma passes_over_quiet {sys : System} (paths : list str) (w w' : World) :
  passes_over paths w w' → stdout w' = stdout w.
Proof. induction 1 as [|path paths w res fs w' _ _ _ IH]; [done | exact IH]. Qed.

(** X16.  What [find_openscad] returns is one of its six candidates, never
    another path and never the empty one, and it has then printed the one
    line that names it; when it returns [None] it has printed nothing. *)
Theorem X16_find_openscad_result {sys : System} (w w' : World)
  (found : option str) :
  find_openscad w = Return found w' →
  match found with
  | Some path =>
      path ∈ possible_paths ∧ path ≠ []
      ∧ stdout w' = stdout w ++ [(lit "Found OpenSCAD at: " ++ path) ++ [chr_newline]]
  | None => stdout w' = stdout w
  end.
Proof.
  destruct found as [path|].
  - intros (before & after & w1 & err & fs & Hpaths & Hpass & _ & ->)
      %find_openscad_from_some.
    assert (Hin : path ∈ possible_paths).
    { rewrite Hpaths. apply elem_of_app. right. by left. }
    split; [done|]. split.
    + intros ->. revert Hin. apply (bool_decide_unpack _). vm_compute. exact I.
    + cbn [confirmed_world stdout]. by rewrite (passes_over_quiet _ _ _ Hpass).
  - intros Hpass%find_openscad_from_none. by apply passes_over_quiet in Hpass.
Qed.

Lemma X16_find_openscad_result_witness :
  let run := find_openscad (sys := toy_system (λ _, Renders) []) empty_world in
  lit "/usr/local/bin/openscad" ∈ possible_paths
  ∧ lit "/usr/local/bin/openscad" ≠ []
  ∧ stdout (world_after run)
    = stdout empty_world
      ++ [(lit "Found OpenSCAD at: " ++ lit "/usr/local/bin/openscad") ++ [chr_newline]].
Proof.
  cbv zeta.
  apply (X16_find_openscad_result (sys := toy_system (λ _, Renders) [])
           empty_world _ (Some (lit "/usr/local/bin/openscad"))).
  apply returned_Return. vm_compute; reflexivity.
Defined.

Lemma find_openscad_never_exits {sys : System} (paths : list str) :
  ∀ w w' code, find_openscad_from paths w ≠ Exit code w'.
Proof.
  induction paths as [|path paths IH]; intros w w' code; [done|].
  destruct (version_query_cases path (files w))
    as [(err & fs & Hq)|[(res & fs & Hq & Hd)|(e & fs & Hq & Hs)]].
  - by rewrite (find_openscad_from_confirmed _ _ _ _ _ Hq).
  - rewrite (find_openscad_from_declined _ _ _ _ _ Hq Hd). apply IH.
  - by rewrite (find_openscad_from_propagates _ _ _ _ _ Hq Hs).
Qed.

(** ** The main program *)

Lemma printed_files (lines : list str) (w : World) :
  files (printed lines w) = files w.
Proof.
  revert w. induction lines as [|l lines IH]; intros w; [done|].
  cbn [printed foldl]. unfold printed in IH. by rewrite IH.
Qed.

Lemma printed_stdout (lines : list str) (w : World) :
  stdout (printed lines w) = stdout w ++ lines.
Proof.
  revert w. induction lines as [|l lines IH]; intros w; cbn [printed foldl].
  - by rewrite app_nil_r.
  - unfold printed in IH. rewrite IH. cbn [stdout]. by rewrite <- app_assoc.
Qed.

Lemma main_summary_printed {sys : System} (successful failed : nat) (w : World) :
  main_summary successful failed w
  = Return () (printed (summary_lines successful failed) w).
Proof. reflexivity. Qed.

(** [main], case by case. *)
Lemma main_cases {rt : Runtime} {sys : System} (w : World) :
  main w
  = match files w !! CSV_FILE with
    | None => Exit 1 (printed csv_missing_lines (greeted w))
    | Some _ =>
        match find_openscad (greeted w) with
        | Return (Some (c :: tool)) w1 => main_with_tool (c :: tool) w1
        | Return _ w1 => Exit 1 (printed tool_missing_lines w1)
        | Raise e w1 => Raise e w1
        | Exit code w1 => Exit code w1
        end
    end.
Proof.
  unfold main. unfold mbind, M_bind. unfold bind at 1 2 3 4 5.
  unfold print, print_end, os_path_exists. cbn [files stdout].
  destruct (files w !! CSV_FILE) as [csv|] eqn:Hcsv.
  - rewrite bool_decide_eq_true_2 by (by eexists). cbn [negb].
    unfold bind at 1. fold (greeted w).
    change {| files := files w; stdout := _ |} with (greeted w).
    destruct (find_openscad (greeted w)) as [[[|c tool]|] w1|e w1|code w1];
      try reflexivity.
    unfold main_with_tool, mkdir, read_csv_file, try_except, bind, sys_exit.
    destruct (mkdir_error OUTPUT_DIR (files w1)) as [e|]; [reflexivity|].
    cbn [files stdout].
    destruct (csv_DictReader CSV_FILE (files w1)) as [e|rows]; [reflexivity|].
    destruct (bool_decide (read_csv rows = [])); [reflexivity|].
    cbn [files stdout].
    match goal with
    | |- match main_loop _ _ _ _ _ _ ?w2 with _ => _ end
         = match main_loop _ _ _ _ _ _ ?w3 with _ => _ end =>
        change w2 with w3
    end.
    by destruct (main_loop _ _ _ _ _ _ _) as [[s f] w2| |].
  - rewrite bool_decide_eq_false_2 by (by intros [? ?]). reflexivity.
Qed.

(** ** The loop of [main] *)

Lemma main_loop_never_exits {rt : Runtime} {sys : System} (tool : str)
  (total : nat) (data : list NameData) :
  ∀ i s f w w' code, main_loop tool total i data s f w ≠ Exit code w'.
Proof.
  induction data as [|d rest IH]; intros i s f w w' code; [done|].
  rewrite main_loop_step.
  destruct (generate_stl _ _ _ _ _) as [[] w1|e w1|c w1] eqn:Hgen;
    [apply IH | apply IH | done |].
  by apply generate_stl_never_exits in Hgen.
Qed.

(** X17.  The loop handles a list of requests piece by piece: running it
    on two lists joined is running it on the first and then, if that
    returned, on the second with the counters and the position it reached;
    an exception in the first part ends the run before the second part. *)
Theorem X17_main_loop_app {rt : Runtime} {sys : System} (tool : str)
  (total : nat) (data1 data2 : list NameData) (i s f : nat) (w : World) :
  main_loop tool total i (data1 ++ data2) s f w
  = match main_loop tool total i data1 s f w with
    | Return (s1, f1) w1 => main_loop tool total (i + length data1) data2 s1 f1 w1
    | Raise e w1 => Raise e w1
    | Exit code w1 => Exit code w1
    end.
Proof.
  revert i s f w. induction data1 as [|d rest IH]; intros i s f w.
  - cbn [app main_loop length]. unfold ret. by rewrite Nat.add_0_r.
  - cbn [app length]. rewrite !main_loop_step.
    destruct (generate_stl _ _ _ _ _) as [[] w1|e w1|c w1]; try done;
      rewrite IH; by replace (S i + length rest)%nat with (i + S (length rest))%nat by lia.
Qed.

(** X18.  The loop is left by an exception only where a script could not
    be written: for one of the requests, the parameter set lacks a key, or
    the system refuses to open the script file and that refusal is the
    exception, or the writing of the opened script breaks off with the
    exception and leaves the file with what was written. *)
Theorem X18_main_loop_raises {rt : Runtime} {sys : System} (tool : str)
  (total i : nat) (data : list NameData) (s f : nat) (w w' : World) (e : exn) :
  main_loop tool total i data s f w = Raise e w' →
  ∃ d, d ∈ data
       ∧ ((∃ key, scad_content (nd_name d) (nd_params d) = inl key
                  ∧ exn_kind e = KeyError)
          ∨ open_error (temp_scad_path OUTPUT_DIR (nd_name d)) (files w') = Some e
          ∨ (∃ text partial fs,
               scad_content (nd_name d) (nd_params d) = inr text
               ∧ open_error (temp_scad_path OUTPUT_DIR (nd_name d)) fs = None
               ∧ write_error (temp_scad_path OUTPUT_DIR (nd_name d)) text fs
                 = Some (e, partial)
               ∧ files w'
                 = <[temp_scad_path OUTPUT_DIR (nd_name d) := partial]> fs)).
Proof.
  revert i s f w. induction data as [|d rest IH]; intros i s f w Hrun; [done|].
  rewrite main_loop_step in Hrun.
  destruct (generate_stl _ _ _ _ _) as [[] w1|e1 w1|c w1] eqn:Hgen.
  - apply IH in Hrun as (d' & Hd' & Hcase). exists d'. split; [by right | done].
  - apply IH in Hrun as (d' & Hd' & Hcase). exists d'. split; [by right | done].
  - injection Hrun as -> ->. exists d. split; [by left|].
    apply generate_stl_raise_inv in Hgen
      as [_ [(key & Hkey & Hkind & _)
            |[(text & _ & Hopen & Hfiles)
             |(text & partial & Htext & Hopen & Hwrite & Hfiles)]]].
    + left. by exists key.
    + right; left. by rewrite Hfiles.
    + right; right. by eexists text, partial, _.
  - done.
Qed.

(** A run on the full disk: the first script is opened and its writing
    breaks off. *)
Lemma X18_main_loop_raises_witness :
  let data := [ {| nd_name := lit "Ann"; nd_params := DEFAULT_PARAMS |};
                {| nd_name := lit "Bob"; nd_params := DEFAULT_PARAMS |} ] in
  let run := main_loop (rt := ascii_runtime) (sys := full_disk_system)
               (lit "openscad") 2 1 data 0 0 empty_world in
  ∃ d, d ∈ data
       ∧ ∃ partial fs,
           files (world_after run)
           = <[temp_scad_path (rt := ascii_runtime) OUTPUT_DIR (nd_name d) := partial]> fs.
Proof.
  cbv zeta.
  destruct (X18_main_loop_raises (rt := ascii_runtime) (sys := full_disk_system)
              (lit "openscad") 2 1
              [ {| nd_name := lit "Ann"; nd_params := DEFAULT_PARAMS |};
                {| nd_name := lit "Bob"; nd_params := DEFAULT_PARAMS |} ]
              0 0 empty_world
              (world_after (main_loop (rt := ascii_runtime)
                 (sys := full_disk_system) (lit "openscad") 2 1
                 [ {| nd_name := lit "Ann"; nd_params := DEFAULT_PARAMS |};
                   {| nd_name := lit "Bob"; nd_params := DEFAULT_PARAMS |} ]
                 0 0 empty_world))
              (Exn OSError (lit "[Errno 28] No space left on device")))
    as (d & Hd & [(key & _ & Hkind)|[Hopen|(text & partial & fs & _ & _ & _ & Hfiles)]]).
  - vm_compute; reflexivity.
  - discriminate Hkind.
  - discriminate Hopen.
  - exists d. split; [exact Hd | by exists partial, fs].
Defined.

Lemma main_loop_returns_where_writable {rt : Runtime} {sys : System}
  (tool : str) (total : nat) (data : list NameData) :
  Forall (λ d, (∀ key, key ∈ DEFAULT_PARAMS_keys → is_Some (nd_params d !! key))
               ∧ ∀ fs text,
                   open_error (temp_scad_path OUTPUT_DIR (nd_name d)) fs = None
                   ∧ write_error (temp_scad_path OUTPUT_DIR (nd_name d)) text fs
                     = None)
         data →
  ∀ i s f w, ∃ s' f' w',
    main_loop tool total i data s f w = Return (s', f') w'.
Proof.
  intros Hdata. induction Hdata as [|d rest [Hd Hopen] _ IH]; intros i s f w.
  - by eexists _, _, _.
  - rewrite main_loop_step.
    destruct (scad_content_defined (nd_name d) (nd_params d) Hd) as [text Htext].
    match goal with |- context [generate_stl _ _ _ _ ?w0] => set (w1 := w0) end.
    destruct (spawn [tool; lit "-o"; output_stl_path OUTPUT_DIR (nd_name d);
                     temp_scad_path OUTPUT_DIR (nd_name d)] 60
                (<[temp_scad_path OUTPUT_DIR (nd_name d) := text]> (files w1)))
      as [res fs] eqn:Hrun.
    destruct (generate_stl_classifies tool _ _ _ w1 _ _ _ Htext
                (proj1 (Hopen _ text)) (proj2 (Hopen _ text)) Hrun)
      as (b & w2 & -> & _). destruct b; apply IH.
Qed.

(** X19.  On the requests of the reader the loop runs to its end whenever
    the system lets every script be written, that is, lets its file be
    opened and the text be written to the end: whatever the tool does
    (fail, time out, not start), each request is counted and none is
    skipped. *)
Theorem X19_main_loop_completes {rt : Runtime} {sys : System} (tool : str)
  (rows : list Row) (w : World) :
  (∀ d fs text, d ∈ read_csv rows →
     open_error (temp_scad_path OUTPUT_DIR (nd_name d)) fs = None
     ∧ write_error (temp_scad_path OUTPUT_DIR (nd_name d)) text fs = None) →
  ∃ successful failed w',
    main_loop tool (length (read_csv rows)) 1 (read_csv rows) 0 0 w
    = Return (successful, failed) w'
    ∧ (successful + failed = length (read_csv rows))%nat.
Proof.
  intros Hwritable.
  destruct (main_loop_returns_where_writable tool (length (read_csv rows))
              (read_csv rows)) with (i := 1%nat) (s := 0%nat) (f := 0%nat) (w := w)
    as (s' & f' & w' & Hrun).
  - apply Forall_forall. intros d Hd. split; [|intros fs text; by apply Hwritable].
    apply read_csv_member in Hd as (row & name & _ & _ & ->). cbn [nd_params].
    intros key Hkey. destruct (default_present key Hkey) as [default Hdefault].
    rewrite (resolved_params_lookup row key default) by done. by eexists.
  - exists s', f', w'. split; [done|].
    apply main_loop_counts in Hrun. lia.
Qed.

Lemma X19_main_loop_completes_witness :
  ∃ successful failed w',
    main_loop (rt := ascii_runtime) (sys := bare_system) (lit "openscad")
      (length (read_csv (rt := ascii_runtime) scenario_rows)) 1
      (read_csv (rt := ascii_runtime) scenario_rows) 0 0 empty_world
    = Return (successful, failed) w'
    ∧ (successful + failed = length (read_csv (rt := ascii_runtime) scenario_rows))%nat.
Proof.
  apply (X19_main_loop_completes (rt := ascii_runtime) (sys := bare_system)).
  intros d fs text _. split; reflexivity.
Defined.

(** ** The whole run *)

(** X20.  Without the CSV file the run ends at once with exit status 1: it
    prints the greeting and the seven lines of advice, starts no process
    and touches no file. *)
Theorem X20_main_csv_missing {rt : Runtime} {sys : System} (w : World) :
  files w !! CSV_FILE = None →
  main w = Exit 1 (printed csv_missing_lines (greeted w))
  ∧ files (printed csv_missing_lines (greeted w)) = files w.
Proof.
  intros Hcsv. rewrite main_cases, Hcsv. split; [done|].
  unfold greeted. by rewrite !printed_files.
Qed.

Lemma X20_main_csv_missing_witness :
  main (rt := ascii_runtime) (sys := toy_system (λ _, Renders) scenario_rows)
    empty_world
  = Exit 1 (printed csv_missing_lines (greeted empty_world))
  ∧ files (printed csv_missing_lines (greeted empty_world)) = files empty_world.
Proof.
  apply (X20_main_csv_missing (rt := ascii_runtime)
           (sys := toy_system (λ _, Renders) scenario_rows) empty_world).
  reflexivity.
Defined.

(** X21.  When no candidate answers, the run ends with exit status 1 after
    the three lines that say so; the output directory is not created and
    the CSV file is not read. *)
Theorem X21_main_tool_missing {rt : Runtime} {sys : System} (w w1 : World) :
  is_Some (files w !! CSV_FILE) →
  find_openscad (greeted w) = Return None w1 →
  main w = Exit 1 (printed tool_missing_lines w1).
Proof. intros [csv Hcsv] Hfind. by rewrite main_cases, Hcsv, Hfind. Qed.

Lemma X21_main_tool_missing_witness :
  let w := {| files := {[ CSV_FILE := [] ]}; stdout := [] |} in
  main (rt := ascii_runtime) (sys := bare_system) w
  = Exit 1 (printed tool_missing_lines (greeted w)).
Proof.
  cbv zeta.
  apply (X21_main_tool_missing (rt := ascii_runtime) (sys := bare_system)).
  - vm_compute. by eexists.
  - vm_compute; reflexivity.
Defined.

Lemma read_csv_nameless {rt : Runtime} (rows : list Row) :
  read_csv rows = [] ↔ Forall (λ row, nameless row = true) rows.
Proof.
  rewrite read_csv_requests. induction rows as [|row rows IH].
  - split; [constructor | done].
  - cbn [omap list_omap]. unfold request_of at 1, nameless at 1.
    rewrite Forall_cons, bool_decide_eq_true, <- IH.
    destruct (display_name row); cbn; [|tauto].
    split; [done | by intros [? _]].
Qed.

Lemma find_openscad_found_nonempty {sys : System} (w w1 : World) (tool : str) :
  find_openscad w = Return (Some tool) w1 → ∃ c tool', tool = c :: tool'.
Proof.
  intros (before & after & _ & _ & _ & Hpaths & _)%find_openscad_from_some.
  assert (Hin : tool ∈ possible_paths).
  { rewrite Hpaths. apply elem_of_app. right. by left. }
  destruct tool as [|c tool']; [|by eauto].
  exfalso. revert Hin. apply (bool_decide_unpack _). vm_compute. exact I.
Qed.

(** X22.  A CSV file in which no row has a name ends the run with exit
    status 1 after the tool was found and the directory made: no request
    is attempted, no file is written, and the last line says that no valid
    names were found. *)
Theorem X22_main_no_names {rt : Runtime} {sys : System} (w w1 : World)
  (tool : str) (rows : list Row) :
  is_Some (files w !! CSV_FILE) →
  find_openscad (greeted w) = Return (Some tool) w1 →
  mkdir_error OUTPUT_DIR (files w1) = None →
  csv_DictReader CSV_FILE (files w1) = inr rows →
  Forall (λ row, nameless row = true) rows →
  main w
  = Exit 1 (printed [lit "Error: No valid names found in CSV file!" ++ [chr_newline]]
              (printed directory_lines w1)).
Proof.
  intros [csv Hcsv] Hfind Hmkdir Hrows Hnameless%read_csv_nameless.
  destruct (find_openscad_found_nonempty _ _ _ Hfind) as (c & tool' & ->).
  rewrite main_cases, Hcsv, Hfind. unfold main_with_tool.
  by rewrite Hmkdir, Hrows, Hnameless.
Qed.

Lemma X22_main_no_names_witness :
  let rows := [row_of [("name", "   ")]; row_of [("text_size", "12")]] in
  let w := {| files := {[ CSV_FILE := [] ]}; stdout := [] |} in
  main (rt := ascii_runtime) (sys := toy_system (λ _, Renders) rows) w
  = Exit 1 (printed [lit "Error: No valid names found in CSV file!" ++ [chr_newline]]
              (printed directory_lines
                 (printed [(lit "Found OpenSCAD at: " ++ lit "/usr/local/bin/openscad")
                           ++ [chr_newline]] (greeted w)))).
Proof.
  cbv zeta.
  apply (X22_main_no_names (rt := ascii_runtime)
           (sys := toy_system (λ _, Renders)
                     [row_of [("name", "   ")]; row_of [("text_size", "12")]])
           _ _ (lit "/usr/local/bin/openscad")
           [row_of [("name", "   ")]; row_of [("text_size", "12")]]).
  - vm_compute. by eexists.
  - vm_compute; reflexivity.
  - reflexivity.
  - reflexivity.
  - repeat constructor.
Defined.

(** X23.  When opening or decoding the CSV file raises, the exception does
    not leave [main]: the run ends with exit status 1 and the last line
    carries the text of the exception. *)
Theorem X23_main_csv_unreadable {rt : Runtime} {sys : System} (w w1 : World)
  (tool : str) (e : exn) :
  is_Some (files w !! CSV_FILE) →
  find_openscad (greeted w) = Return (Some tool) w1 →
  mkdir_error OUTPUT_DIR (files w1) = None →
  csv_DictReader CSV_FILE (files w1) = inl e →
  main w
  = Exit 1 (printed [(lit "Error reading CSV file: " ++ exn_text e) ++ [chr_newline]]
              (printed directory_lines w1)).
Proof.
  intros [csv Hcsv] Hfind Hmkdir Hrows.
  destruct (find_openscad_found_nonempty _ _ _ Hfind) as (c & tool' & ->).
  rewrite main_cases, Hcsv, Hfind. unfold main_with_tool.
  by rewrite Hmkdir, Hrows.
Qed.

Lemma X23_main_csv_unreadable_witness :
  let w := {| files := {[ CSV_FILE := [] ]}; stdout := [] |} in
  main (rt := ascii_runtime) (sys := undecodable_csv_system) w
  = Exit 1 (printed [(lit "Error reading CSV file: "
                      ++ lit "'utf-8' codec can't decode byte 0xff in position 0")
                     ++ [chr_newline]]
              (printed directory_lines
                 (printed [(lit "Found OpenSCAD at: " ++ lit "/usr/local/bin/openscad")
                           ++ [chr_newline]] (greeted w)))).
Proof.
  cbv zeta.
  apply (X23_main_csv_unreadable (rt := ascii_runtime)
           (sys := undecodable_csv_system) _ _ (lit "/usr/local/bin/openscad")
           (Exn OSError (lit "'utf-8' codec can't decode byte 0xff in position 0"))).
  - vm_compute. by eexists.
  - vm_compute; reflexivity.
  - reflexivity.
  - reflexivity.
Defined.

(** X24.  The only exit status [main] sets is 1: whenever the run ends
    through [sys.exit], the status is 1. *)
Theorem X24_main_exit_status {rt : Runtime} {sys : System} (w w' : World)
  (code : Z) :
  main w = Exit code w' → code = 1%Z.
Proof.
  rewrite main_cases. destruct (files w !! CSV_FILE) as [csv|]; [|by intros [= <-]].
  destruct (find_openscad (greeted w)) as [[[|c tool]|] w1|e w1|c w1] eqn:Hfind;
    try by intros [= <-].
  - unfold main_with_tool.
    destruct (mkdir_error OUTPUT_DIR (files w1)); [done|].
    destruct (csv_DictReader CSV_FILE (files w1)) as [e|rows]; [by intros [= <-]|].
    case_bool_decide; [by intros [= <-]|].
    destruct (main_loop _ _ _ _ _ _ _) as [counts w2|e w2|c2 w2] eqn:Hloop;
      [done | done |].
    by apply main_loop_never_exits in Hloop.
  - by apply find_openscad_never_exits in Hfind.
Qed.

Lemma X24_main_exit_status_witness :
  (1 = 1)%Z
  ∧ main (rt := ascii_runtime) (sys := bare_system)
      {| files := {[ CSV_FILE := [] ]}; stdout := [] |}
    = Exit 1 (printed tool_missing_lines
                (greeted {| files := {[ CSV_FILE := [] ]}; stdout := [] |})).
Proof.
  assert (Hrun : main (rt := ascii_runtime) (sys := bare_system)
                   {| files := {[ CSV_FILE := [] ]}; stdout := [] |}
                 = Exit 1 (printed tool_missing_lines
                             (greeted {| files := {[ CSV_FILE := [] ]}; stdout := [] |}))).
  { vm_compute; reflexivity. }
  split; [|exact Hrun].
  exact (X24_main_exit_status (rt := ascii_runtime) (sys := bare_system) _ _ 1 Hrun).
Defined.

(** X25.  The run returns normally only after everything went through: the
    CSV file was there, a candidate answered, at least one row had a name,
    and every request was attempted; it has then printed the summary, whose
    two counts add up to the number of requests. *)
Theorem X25_main_returns {rt : Runtime} {sys : System} (w w' : World) :
  main w = Return () w' →
  ∃ tool w1 rows successful failed w2,
    is_Some (files w !! CSV_FILE)
    ∧ find_openscad (greeted w) = Return (Some tool) w1
    ∧ csv_DictReader CSV_FILE (files w1) = inr rows
    ∧ read_csv rows ≠ []
    ∧ main_loop tool (length (read_csv rows)) 1 (read_csv rows) 0 0
        (printed (found_lines (length (read_csv rows))) (printed directory_lines w1))
      = Return (successful, failed) w2
    ∧ (successful + failed = length (read_csv rows))%nat
    ∧ w' = printed (summary_lines successful failed) w2.
Proof.
  rewrite main_cases. destruct (files w !! CSV_FILE) as [csv|] eqn:Hcsv; [|done].
  destruct (find_openscad (greeted w)) as [[[|c tool]|] w1|e w1|c w1] eqn:Hfind;
    try done.
  unfold main_with_tool.
  destruct (mkdir_error OUTPUT_DIR (files w1)); [done|].
  destruct (csv_DictReader CSV_FILE (files w1)) as [e|rows] eqn:Hrows; [done|].
  case_bool_decide as Hnames; [done|].
  destruct (main_loop _ _ _ _ _ _ _) as [[s f] w2|e w2|c2 w2] eqn:Hloop;
    [|done|done].
  intros [= <-]. exists (c :: tool), w1, rows, s, f, w2.
  repeat split; try done. apply main_loop_counts in Hloop. lia.
Qed.

Lemma X25_main_returns_witness :
  let w := {| files := {[ CSV_FILE := [] ]}; stdout := [] |} in
  ∃ tool w1 rows successful failed w2,
    is_Some (files w !! CSV_FILE)
    ∧ find_openscad (sys := toy_system (λ _, Renders) scenario_rows) (greeted w)
      = Return (Some tool) w1
    ∧ csv_DictReader (System := toy_system (λ _, Renders) scenario_rows)
        CSV_FILE (files w1) = inr rows
    ∧ read_csv (rt := ascii_runtime) rows ≠ []
    ∧ main_loop (rt := ascii_runtime) (sys := toy_system (λ _, Renders) scenario_rows)
        tool (length (read_csv (rt := ascii_runtime) rows)) 1
        (read_csv (rt := ascii_runtime) rows) 0 0
        (printed (found_lines (length (read_csv (rt := ascii_runtime) rows)))
           (printed directory_lines w1))
      = Return (successful, failed) w2
    ∧ (successful + failed = length (read_csv (rt := ascii_runtime) rows))%nat
    ∧ world_after (main (rt := ascii_runtime)
                     (sys := toy_system (λ _, Renders) scenario_rows) w)
      = printed (summary_lines (sys := toy_system (λ _, Renders) scenario_rows)
                   successful failed) w2.
Proof.
  cbv zeta.
  apply (X25_main_returns (rt := ascii_runtime)
           (sys := toy_system (λ _, Renders) scenario_rows)).
  apply returned_Return. vm_compute; reflexivity.
Defined.
